(** * Kelvin_STEM: a shallow embedding of the I/O helpers and of the
    cartesian-to-polar resampling engine, with the properties of the
    specification stated and settled against it.

    Layout of the development:
    - [Py]: exceptions and results of the host language;
    - [Read]: [Kelvin_STEM/io/read.py], function [read_mib_to_np], with the
      part of the file system and of [np.memmap] it relies on;
    - [DirectoryListing]: [Kelvin_STEM/io/directorylisting.py], [file_list];
    - [Numpy]: the array operations used by [Kelvin_STEM/process/polar.py];
    - [Polar]: [discfloat] and [polarttransform], written once over an
      interface of float64 operations that is instantiated twice: by exact
      real arithmetic ([Exact]) and by IEEE binary64 ([Binary64]);
    - [ReadCallers]: [read_mib_from_dmscan], the caller of [read_mib_to_np];
    - [ListingNotions], [PolarNotions]: notions and inputs used in the
      statements;
    - [ReadFacts], [DirectoryListingFacts], [PolarFacts], [ExactFacts],
      [PolarClaims]: the properties of the specification;
    - [ReadBehaviour], [ListingOrder], [PolarBehaviour]: further properties
      of the code. *)

From Stdlib Require Import ZArith List String Ascii Bool Lia.
From Stdlib Require Import Reals Lra.
From Stdlib Require Import Sorting.Sorted Sorting.Permutation.
From Stdlib Require Import Floats.PrimFloat Floats.SpecFloat Floats.FloatOps.
Import ListNotations.

Local Open Scope string_scope.
Local Open Scope list_scope.
Local Open Scope Z_scope.

(* ================================================================== *)
(** * The host language: exceptions and results *)
(* ================================================================== *)

Module Py.

(** The exceptions that the modelled code and the library calls it makes
    can raise.  [Exception] is the bare [Exception(msg)] of the source. *)
Inductive exn : Type :=
| Exception (msg : string)
| ValueError
| IndexError
| ZeroDivisionError
| FileNotFoundError
| OverflowError.

(** A call either returns a value or raises. *)
Inductive result (A : Type) : Type :=
| Ok (a : A)
| Raise (e : exn).

Arguments Ok {A} a.
Arguments Raise {A} e.

Definition rbind {A B : Type} (m : result A) (k : A -> result B) : result B :=
  match m with
  | Ok a => k a
  | Raise e => Raise e
  end.

End Py.

Export Py.

Declare Scope py_scope.
Delimit Scope py_scope with py.
Notation "x <- m ;; k" := (rbind m (fun x => k))
  (at level 61, m at next level, right associativity) : py_scope.

(* ================================================================== *)
(** * io/read.py *)
(* ================================================================== *)

Module Read.

(** ** File system and observable file accesses *)

(** The part of the file system the reader looks at: the size in bytes of
    the file at a path, [None] when there is no such file. *)
Definition filesystem : Type := string -> option Z.

(** One entry per access to the file system. *)
Inductive fs_event : Type :=
| EvMemmap (path : string)      (* np.memmap opens the file *)
| EvGetsize (path : string).    (* os.path.getsize *)

(** A computation that records its file accesses and may raise. *)
Definition io (A : Type) : Type := (list fs_event * result A)%type.

Definition ret {A : Type} (a : A) : io A := ([], Ok a).

Definition bind {A B : Type} (m : io A) (k : A -> io B) : io B :=
  match m with
  | (t, Ok a) => let (t', r) := k a in ((t ++ t')%list, r)
  | (t, Raise e) => (t, Raise e)
  end.

(** [try: body except ValueError: handler]. *)
Definition try_except_ValueError {A : Type} (body handler : io A) : io A :=
  match body with
  | (t, Raise ValueError) => let (t', r) := handler in ((t ++ t')%list, r)
  | other => other
  end.

Definition lift {A : Type} (r : result A) : io A := ([], r).

(** ** Element types and the record layout of one detector frame *)

Inductive dtype : Type := uint8 | uint16.

Definition dtype_itemsize (d : dtype) : Z :=
  match d with
  | uint8 => 1
  | uint16 => 2
  end.

(** [np.dtype([("head", np.uint8, header), ("data", data_type, (kx, ky)),
    ("foot", np.uint8, footer)])]: a packed record. *)
Record frametype : Type := mk_frametype {
  head : Z;
  data_dtype : dtype;
  data_shape : Z * Z;
  foot : Z
}.

Definition np_dtype (header : Z) (data_type : dtype) (kx ky : Z) (footer : Z)
  : result frametype :=
  if (header <? 0) || (kx <? 0) || (ky <? 0) || (footer <? 0)
  then Raise ValueError   (* dimension smaller than zero *)
  else Ok (mk_frametype header data_type (kx, ky) footer).

Definition itemsize (ft : frametype) : Z :=
  head ft * dtype_itemsize uint8
  + fst (data_shape ft) * snd (data_shape ft) * dtype_itemsize (data_dtype ft)
  + foot ft * dtype_itemsize uint8.

(** ** np.memmap in mode "r" *)

(** A read-only view of the first [mm_nbytes] bytes of a file as
    [mm_shape] records of type [mm_dtype]. *)
Record memmap : Type := mk_memmap {
  mm_path : string;
  mm_dtype : frametype;
  mm_shape : Z * Z;
  mm_nbytes : Z
}.

(** [np.memmap(path, dtype, mode="r", shape=shape)] with offset 0.  The
    file is opened; the number of bytes to map is the product of the shape
    times the item size; [mmap.mmap] refuses a negative length
    ([OverflowError]), an empty file and a length greater than the size of
    the file ([ValueError]); the array constructor refuses negative
    dimensions ([ValueError]).  Nothing beyond the end of the file is ever
    mapped. *)
Definition np_memmap (fs : filesystem) (path : string) (ft : frametype)
    (shape : Z * Z) : io memmap :=
  ([EvMemmap path],
   match fs path with
   | None => Raise FileNotFoundError
   | Some flen =>
       let size := fst shape * snd shape in
       let bytes := size * itemsize ft in
       if bytes <? 0 then Raise OverflowError
       else if (bytes =? 0) && (flen =? 0) then Raise ValueError
       else if flen <? bytes then Raise ValueError
       else if (fst shape <? 0) || (snd shape <? 0) then Raise ValueError
       else Ok (mk_memmap path ft shape bytes)
   end).

(** [os.path.getsize(path)]. *)
Definition os_path_getsize (fs : filesystem) (path : string) : io Z :=
  ([EvGetsize path],
   match fs path with
   | None => Raise FileNotFoundError
   | Some flen => Ok flen
   end).

(** [data.reshape(a, b)] on a two-dimensional view. *)
Definition reshape2 (m : memmap) (a b : Z) : result memmap :=
  if fst (mm_shape m) * snd (mm_shape m) =? a * b
  then Ok (mk_memmap (mm_path m) (mm_dtype m) (a, b) (mm_nbytes m))
  else Raise ValueError.

(** ** The 4D result *)

(** The array returned to the caller: its shape over (scan-row,
    scan-column, detector-row, detector-column) and the mapping it is a
    view of. *)
Record ndarray4 : Type := mk_ndarray4 {
  scan_rows : Z;
  scan_cols : Z;
  det_rows : Z;
  det_cols : Z;
  base : memmap
}.

(** [data["data"]]: the payload field of every record. *)
Definition field_data (m : memmap) : ndarray4 :=
  mk_ndarray4 (fst (mm_shape m)) (snd (mm_shape m))
              (fst (data_shape (mm_dtype m))) (snd (data_shape (mm_dtype m))) m.

(** Length of [a[:stop]] along an axis of length [n] (the host language's
    slice rule: a negative stop counts from the end, then it is clamped). *)
Definition slice_stop_len (n stop : Z) : Z :=
  if stop <? 0 then Z.max 0 (stop + n) else Z.min stop n.

(** [a[:, :stop, :, :]]. *)
Definition slice_scan_cols (a : ndarray4) (stop : Z) : ndarray4 :=
  mk_ndarray4 (scan_rows a) (slice_stop_len (scan_cols a) stop)
              (det_rows a) (det_cols a) (base a).

(** ** read_mib_to_np *)

(** Lines 48-55: the element type and its width in bytes. *)
Definition bit_depth_params (bit_depth : Z) : result (dtype * Z) :=
  if bit_depth =? 12 then Ok (uint16, 2)
  else if bit_depth =? 6 then Ok (uint8, 1)
  else if bit_depth =? 1 then Ok (uint8, 1)
  else Raise (Exception "Incorrect data type selected, please enter 12, 6 or 1").

(** [int(a / b)] for integers [a], [b]: true division, then truncation
    toward zero.  (The quotient is formed in float64; it agrees with the
    integer quotient for operands below 2^53, which file sizes are.) *)
Definition int_truediv (a b : Z) : result Z :=
  if b =? 0 then Raise ZeroDivisionError else Ok (Z.quot a b).

Definition read_mib_to_np (fs : filesystem) (filepath : string)
    (xdim ydim kx ky flybackpix bit_depth header footer : Z) : io ndarray4 :=
  bind (lift (bit_depth_params bit_depth)) (fun '(data_type, b) =>
  bind
    (try_except_ValueError
       (* the acquisition finished and the full file was recorded *)
       (bind (lift (np_dtype header data_type kx ky footer)) (fun frametype =>
        bind (np_memmap fs filepath frametype (xdim, ydim + flybackpix)) (fun data =>
        ret (xdim, data))))
       (* the file did not finish the full scan *)
       (bind (os_path_getsize fs filepath) (fun file_size =>
        bind (lift (int_truediv file_size
                      ((ydim + 1) * (kx * ky * b + header + footer)))) (fun xdim =>
        bind (lift (np_dtype header data_type kx ky footer)) (fun frametype =>
        bind (np_memmap fs filepath frametype (xdim, ydim + flybackpix)) (fun data =>
        ret (xdim, data)))))))
    (fun '(xdim, data) =>
  bind (lift (reshape2 data xdim (ydim + flybackpix))) (fun data =>
  if flybackpix >? 0
  then ret (slice_scan_cols (field_data data) (- flybackpix))
  else ret (field_data data)))).

(** Default arguments of the source. *)
Definition default_kx : Z := 256.
Definition default_ky : Z := 256.
Definition default_flybackpix : Z := 1.
Definition default_bit_depth : Z := 12.
Definition default_header : Z := 384.
Definition default_footer : Z := 0.

(** Size in bytes of one record. *)
Definition record_bytes (kx ky b header footer : Z) : Z :=
  kx * ky * b + header + footer.

(** A file system holding one file. *)
Definition single_file (path : string) (size : Z) : filesystem :=
  fun p => if String.eqb p path then Some size else None.

(** ** Notions used in the statements *)

(** The three supported bit depths. *)
Definition supported (bit_depth : Z) : Prop :=
  bit_depth = 12 \/ bit_depth = 6 \/ bit_depth = 1.

(** A computation that raises no bare [Exception]. *)
Definition no_exception {A : Type} (m : io A) : Prop :=
  forall msg, snd m <> Raise (Exception msg).

(** The view that either branch of the [try] builds for the outer
    dimension [xd]. *)
Definition view_of (filepath : string) (header : Z) (dt : dtype) (kx ky footer : Z)
    (xd cols : Z) : memmap :=
  let ft := mk_frametype header dt (kx, ky) footer in
  mk_memmap filepath ft (xd, cols) (xd * cols * itemsize ft).

End Read.

(* ================================================================== *)
(** * io/directorylisting.py *)
(* ================================================================== *)

Module DirectoryListing.

(** The values a caller can pass as [searchterm]. *)
Inductive py_value : Type :=
| PyStr (s : string)
| PyBytes (b : string)
| PyInt (z : Z)
| PyBool (b : bool)
| PyNone.

(** [isinstance(v, str)]. *)
Definition isinstance_str (v : py_value) : bool :=
  match v with
  | PyStr _ => true
  | _ => false
  end.

(** What [file_list] hands back to its caller: a list of names, or [None]
    when the function body ends without a [return]. *)
Inductive py_return : Type :=
| RetList (files : list string)
| RetNone.

(** What a call does: the lines printed on standard output and the way it
    ends. *)
Record outcome : Type := mk_outcome {
  stdout : list string;
  value : result py_return
}.

(** [sorted] on a list of strings (ascending, by code point). *)
Fixpoint insert_sorted (s : string) (l : list string) : list string :=
  match l with
  | [] => [s]
  | x :: tl => if String.leb s x then s :: l else x :: insert_sorted s tl
  end.

Definition sorted (l : list string) : list string :=
  fold_right insert_sorted [] l.

Section FileList.

(** The two library calls: [os.listdir] and [fnmatch.fnmatch]. *)
Variable os_listdir : string -> result (list string).
Variable fnmatch : string -> string -> bool.

Definition file_list (path : string) (searchterm : py_value) : outcome :=
  let files := [] in
  match os_listdir path with
  | Raise e => mk_outcome [] (Raise e)
  | Ok paths =>
      match searchterm with
      | PyStr pattern =>
          let files :=
            fold_left
              (fun files file =>
                 if fnmatch file pattern then (files ++ [file])%list else files)
              paths files in
          mk_outcome [] (Ok (RetList (sorted files)))
      | _ =>
          mk_outcome ["Error: use a text string as search term!"] (Ok RetNone)
      end
  end.

(** The default value of [searchterm]. *)
Definition file_list_default (path : string) : outcome :=
  file_list path (PyStr "*").

End FileList.

(** ** Example collaborators *)

(** A directory with two entries, and a matcher that accepts every name. *)
Definition listdir_two (path : string) : result (list string) :=
  Ok ["b.txt"; "a.h5"].

Definition match_all (name pattern : string) : bool := true.

End DirectoryListing.

(* ================================================================== *)
(** * The array operations of the numerical runtime *)
(* ================================================================== *)

Module Numpy.

(** ** Arrays

    An array is its shape and its entries.  Entries are addressed by
    position; positions outside the shape are never read by the
    operations below. *)

Record array1 (A : Type) : Type := mk_array1 {
  len : nat;
  at1 : nat -> A
}.

Record array2 (A : Type) : Type := mk_array2 {
  shape : nat * nat;
  at2 : nat -> nat -> A
}.

Record array3 (A : Type) : Type := mk_array3 {
  shape3 : nat * nat * nat;
  at3 : nat -> nat -> nat -> A
}.

Arguments mk_array1 {A} len at1.
Arguments len {A} a.
Arguments at1 {A} a i.
Arguments mk_array2 {A} shape at2.
Arguments shape {A} a.
Arguments at2 {A} a i j.
Arguments mk_array3 {A} shape3 at3.
Arguments shape3 {A} a.
Arguments at3 {A} a c i j.

Definition rows {A : Type} (a : array2 A) : nat := fst (shape a).
Definition cols {A : Type} (a : array2 A) : nat := snd (shape a).

Definition dim0 {A : Type} (a : array3 A) : nat := fst (fst (shape3 a)).
Definition dim1 {A : Type} (a : array3 A) : nat := snd (fst (shape3 a)).
Definition dim2 {A : Type} (a : array3 A) : nat := snd (shape3 a).

(** Arrays from and to lists, to write inputs and read results. *)
Definition of_list {A : Type} (d : A) (l : list A) : array1 A :=
  mk_array1 (List.length l) (fun i => nth i l d).

Definition of_rows {A : Type} (d : A) (ncols : nat) (l : list (list A)) : array2 A :=
  mk_array2 (List.length l, ncols) (fun i j => nth j (nth i l []) d).

Definition to_list {A : Type} (a : array1 A) : list A :=
  map (at1 a) (seq 0 (len a)).

Definition to_rows {A : Type} (a : array2 A) : list (list A) :=
  map (fun i => map (at2 a i) (seq 0 (cols a))) (seq 0 (rows a)).

(** ** Constructors *)

(** [np.arange(start, stop)] on integers. *)
Definition arange_int (start stop : Z) : array1 Z :=
  mk_array1 (Z.to_nat (stop - start)) (fun k => start + Z.of_nat k).

(** [np.ones(shape=(n))]. *)
Definition ones {A : Type} (one : A) (n : Z) : result (array1 A) :=
  if n <? 0 then Raise ValueError   (* negative dimensions are not allowed *)
  else Ok (mk_array1 (Z.to_nat n) (fun _ => one)).

(** [np.meshgrid(x, y)] with the default indexing ("xy"): both outputs
    have shape (len(y), len(x)); the first repeats [x] along every row,
    the second repeats [y] down every column. *)
Definition meshgrid {A B : Type} (x : array1 A) (y : array1 B)
  : array2 A * array2 B :=
  (mk_array2 (len y, len x) (fun _ j => at1 x j),
   mk_array2 (len y, len x) (fun i _ => at1 y i)).

(** [np.array([a, b])] for two arrays of one shape. *)
Definition stack2 {A : Type} (a b : array2 A) : array3 A :=
  mk_array3 (2%nat, rows a, cols a)
            (fun c i j => match c with O => at2 a i j | _ => at2 b i j end).

(** ** Elementwise operations *)

Definition map1 {A B : Type} (f : A -> B) (a : array1 A) : array1 B :=
  mk_array1 (len a) (fun i => f (at1 a i)).

Definition map2 {A B : Type} (f : A -> B) (a : array2 A) : array2 B :=
  mk_array2 (shape a) (fun i j => f (at2 a i j)).

Definition map3 {A B : Type} (f : A -> B) (a : array3 A) : array3 B :=
  mk_array3 (shape3 a) (fun c i j => f (at3 a c i j)).

(** Binary operations on two arrays of one shape. *)
Definition zip1 {A B C : Type} (f : A -> B -> C) (a : array1 A) (b : array1 B)
  : array1 C :=
  mk_array1 (len a) (fun i => f (at1 a i) (at1 b i)).

Definition zip2 {A B C : Type} (f : A -> B -> C) (a : array2 A) (b : array2 B)
  : array2 C :=
  mk_array2 (shape a) (fun i j => f (at2 a i j) (at2 b i j)).

(** [np.where(cond, a, b)]. *)
Definition np_where {A : Type} (cond : array1 bool) (a b : array1 A) : array1 A :=
  mk_array1 (len cond) (fun i => if at1 cond i then at1 a i else at1 b i).

(** Broadcasting of one axis: equal lengths, or one of them is 1. *)
Definition broadcast_axis (n m : nat) : result nat :=
  if Nat.eqb n m then Ok n
  else if Nat.eqb n 1 then Ok m
  else if Nat.eqb m 1 then Ok n
  else Raise ValueError.   (* operands could not be broadcast together *)

Definition bidx (n i : nat) : nat := if Nat.eqb n 1 then O else i.

(** A binary operation on two 2D arrays, with broadcasting. *)
Definition broadcast2 {A B C : Type} (f : A -> B -> C)
    (a : array2 A) (b : array2 B) : result (array2 C) :=
  (r <- broadcast_axis (rows a) (rows b) ;;
   c <- broadcast_axis (cols a) (cols b) ;;
   Ok (mk_array2 (r, c)
         (fun i j => f (at2 a (bidx (rows a) i) (bidx (cols a) j))
                       (at2 b (bidx (rows b) i) (bidx (cols b) j)))))%py.

(** ** Reshaping (row-major) and transposition *)

(** [a[c]] for a 3D array. *)
Definition sub3 {A : Type} (a : array3 A) (c : nat) : array2 A :=
  mk_array2 (dim1 a, dim2 a) (fun i j => at3 a c i j).

(** [a[i]] for a 2D array. *)
Definition row {A : Type} (a : array2 A) (i : nat) : array1 A :=
  mk_array1 (cols a) (fun j => at2 a i j).

(** [a.reshape(n)], 2D to 1D. *)
Definition reshape_2_1 {A : Type} (a : array2 A) (n : nat) : result (array1 A) :=
  if Nat.eqb (rows a * cols a) n
  then Ok (mk_array1 n (fun p => at2 a (p / cols a) (p mod cols a)))
  else Raise ValueError.

(** [a.reshape(r, c)], 1D to 2D. *)
Definition reshape_1_2 {A : Type} (a : array1 A) (r c : nat) : result (array2 A) :=
  if Nat.eqb (len a) (r * c)
  then Ok (mk_array2 (r, c) (fun i j => at1 a (i * c + j)))
  else Raise ValueError.

(** [a.reshape((r, c))], 3D to 2D. *)
Definition reshape_3_2 {A : Type} (a : array3 A) (r c : nat) : result (array2 A) :=
  if Nat.eqb (dim0 a * dim1 a * dim2 a) (r * c)
  then Ok (mk_array2 (r, c)
             (fun i j =>
                let p := (i * c + j)%nat in
                at3 a (p / (dim1 a * dim2 a))
                      ((p mod (dim1 a * dim2 a)) / dim2 a)
                      ((p mod (dim1 a * dim2 a)) mod dim2 a)))
  else Raise ValueError.

(** [a.T]. *)
Definition transpose {A : Type} (a : array2 A) : array2 A :=
  mk_array2 (cols a, rows a) (fun i j => at2 a j i).

(** ** Indexing with integer arrays *)

(** An index [i] addresses an axis of length [n] when [-n <= i < n];
    a negative index counts from the end. *)
Definition index_ok (n : nat) (i : Z) : bool :=
  (- Z.of_nat n <=? i) && (i <? Z.of_nat n).

Definition norm_index (n : nat) (i : Z) : nat :=
  Z.to_nat (if i <? 0 then i + Z.of_nat n else i).

(** [a[rows, cols]] for two integer arrays of one length: the entries at
    the paired positions; [IndexError] when some index is out of bounds. *)
Definition take2 {A : Type} (a : array2 A) (ri ci : array1 Z) : result (array1 A) :=
  if forallb
       (fun p => index_ok (rows a) (at1 ri p) && index_ok (cols a) (at1 ci p))
       (seq 0 (len ri))
  then Ok (mk_array1 (len ri)
             (fun p => at2 a (norm_index (rows a) (at1 ri p))
                             (norm_index (cols a) (at1 ci p))))
  else Raise IndexError.

(** ** Conversion to int16 *)

(** The 16-bit two's complement value of an integer. *)
Definition wrap16 (z : Z) : Z := (z + 32768) mod 65536 - 32768.

End Numpy.

(* ================================================================== *)
(** * process/polar.py *)
(* ================================================================== *)

Module Polar.

Import Numpy.

(** ** The float64 operations the code uses

    The code computes on float64 values.  It is embedded once, over the
    operations below; [Exact] interprets them in exact real arithmetic
    (the arithmetic in which the formulae of the specification are meant)
    and [Binary64] in IEEE binary64, round to nearest even (the arithmetic
    the code runs in). *)

Class Float64 (F : Type) : Type := {
  of_int : Z -> F;           (* conversion of an integer to float64 *)
  fadd : F -> F -> F;
  fsub : F -> F -> F;
  fmul : F -> F -> F;
  fdiv : F -> F -> F;
  np_pi : F;                 (* np.pi *)
  np_sin : F -> F;           (* np.sin *)
  np_cos : F -> F;           (* np.cos *)
  np_floor : F -> F;         (* np.floor *)
  np_ceil : F -> F;          (* np.ceil *)
  np_round : F -> F;         (* np.round(x, 0): to nearest, ties to even *)
  to_int : F -> Z            (* conversion to an integer type: truncation *)
}.

Declare Scope f64_scope.
Delimit Scope f64_scope with f64.
Infix "+" := fadd : f64_scope.
Infix "-" := fsub : f64_scope.
Infix "*" := fmul : f64_scope.
Infix "/" := fdiv : f64_scope.

Section Code.

Context {F : Type} {F64 : Float64 F}.

(** [a / b] for a float [a] and an integer [b] of the host language. *)
Definition py_truediv (a : F) (b : Z) : result F :=
  if b =? 0 then Raise ZeroDivisionError else Ok (a / of_int b)%f64.

(** [np.arange(start, stop, step)] on floats: the length is
    [ceil((stop - start) / step)], computed in float64; the first two
    entries are [start] and [start + step], and entry [i] is
    [start + i * delta] where [delta] is the difference of the first
    two. *)
Definition arange (start stop step : F) : array1 F :=
  let next := (start + step)%f64 in
  let delta := (next - start)%f64 in
  mk_array1 (Z.to_nat (to_int (np_ceil ((stop - start) / step)%f64)))
    (fun i => match i with
              | O => start
              | S O => next
              | _ => (start + of_int (Z.of_nat i) * delta)%f64
              end).

(** [.astype("int16")] on a float64 value. *)
Definition astype_int16 (x : F) : Z := wrap16 (to_int x).

(** Lines 46-52. *)
Definition discfloat (ci cj : F) (rmin rmax segments : Z) : result (array3 F) :=
  (step <- py_truediv (of_int 2 * np_pi)%f64 segments ;;
   let phi := arange (of_int 0) (of_int 2 * np_pi)%f64 step in
   let r := arange_int rmin rmax in
   let r_phi_mesh := meshgrid r phi in
   let i := map2 (fun v => v + ci)%f64
              (zip2 (fun a b => of_int a * b)%f64
                    (map2 Z.opp (fst r_phi_mesh))
                    (map2 np_sin (snd r_phi_mesh))) in
   let j := map2 (fun v => v + cj)%f64
              (zip2 (fun a b => of_int a * b)%f64
                    (fst r_phi_mesh)
                    (map2 np_cos (snd r_phi_mesh))) in
   let meshgrids := stack2 i j in
   Ok meshgrids)%py.

(** Lines 99-103: the nearest-pixel lookup. *)
Definition nearest_lookup (DP : array2 F) (disc : array3 F) : result (array2 F) :=
  (let pos := map3 (fun x => astype_int16 (np_round x)) disc in
   pos2 <- reshape_3_2 pos 2 (dim1 pos * dim2 pos) ;;
   picked <- take2 DP (row pos2 0) (row pos2 1) ;;
   pt <- reshape_1_2 picked (dim1 pos) (dim2 pos) ;;
   Ok (transpose pt))%py.

(** Lines 110-119: the pixel rows above ([ui]) and below ([li]) and the
    pixel columns left ([lj]) and right ([rj]) of every sample. *)
Definition upper_i (disc0 : array1 F) : array1 Z :=
  map1 (fun x => astype_int16 (np_floor x)) disc0.

Definition lower_i (disc0 : array1 F) : array1 Z :=
  let ui := upper_i disc0 in
  let li := map1 (fun x => astype_int16 (np_ceil x)) disc0 in
  np_where (zip1 Z.eqb li ui) (map1 (fun v => wrap16 (v + 1)) li) li.

Definition left_j (disc1 : array1 F) : array1 Z :=
  map1 (fun x => astype_int16 (np_floor x)) disc1.

Definition right_j (disc1 : array1 F) : array1 Z :=
  let lj := left_j disc1 in
  let rj := map1 (fun x => astype_int16 (np_ceil x)) disc1 in
  np_where (zip1 Z.eqb rj lj) (map1 (fun v => wrap16 (v + 1)) lj) rj.

(** Lines 120-123: the four weighting parameters. *)
Definition weight_ul (disc0 disc1 : array1 F) (ui lj : array1 Z) : array1 F :=
  zip1 fmul
    (map1 (fsub (of_int 1)) (zip1 (fun x u => x - of_int u)%f64 disc0 ui))
    (map1 (fsub (of_int 1)) (zip1 (fun y l => y - of_int l)%f64 disc1 lj)).

Definition weight_ur (disc0 disc1 : array1 F) (ui rj : array1 Z) : array1 F :=
  zip1 fmul
    (map1 (fsub (of_int 1)) (zip1 (fun x u => x - of_int u)%f64 disc0 ui))
    (map1 (fsub (of_int 1)) (zip1 (fun r y => of_int r - y)%f64 rj disc1)).

Definition weight_ll (disc0 disc1 : array1 F) (li lj : array1 Z) : array1 F :=
  zip1 fmul
    (map1 (fsub (of_int 1)) (zip1 (fun l x => of_int l - x)%f64 li disc0))
    (map1 (fsub (of_int 1)) (zip1 (fun y l => y - of_int l)%f64 disc1 lj)).

Definition weight_lr (disc0 disc1 : array1 F) (li rj : array1 Z) : array1 F :=
  zip1 fmul
    (map1 (fsub (of_int 1)) (zip1 (fun l x => of_int l - x)%f64 li disc0))
    (map1 (fsub (of_int 1)) (zip1 (fun r y => of_int r - y)%f64 rj disc1)).

(** Lines 107-128: the weighted average of the four nearest pixels. *)
Definition bilinear_lookup (DP : array2 F) (disc : array3 F) : result (array2 F) :=
  (let shape := (rows (sub3 disc 0) * cols (sub3 disc 0))%nat in
   disc0 <- reshape_2_1 (sub3 disc 0) shape ;;
   disc1 <- reshape_2_1 (sub3 disc 1) shape ;;
   let ui := upper_i disc0 in
   let li := lower_i disc0 in
   let lj := left_j disc1 in
   let rj := right_j disc1 in
   let wul := weight_ul disc0 disc1 ui lj in
   let wur := weight_ur disc0 disc1 ui rj in
   let wll := weight_ll disc0 disc1 li lj in
   let wlr := weight_lr disc0 disc1 li rj in
   DP_ul <- take2 DP ui lj ;;
   DP_ur <- take2 DP ui rj ;;
   DP_ll <- take2 DP li lj ;;
   DP_lr <- take2 DP li rj ;;
   let total :=
     zip1 fadd
       (zip1 fadd
          (zip1 fadd (zip1 fmul DP_ul wul) (zip1 fmul DP_ur wur))
          (zip1 fmul DP_ll wll))
       (zip1 fmul DP_lr wlr) in
   pt <- reshape_1_2 total (rows (sub3 disc 0)) (cols (sub3 disc 0)) ;;
   Ok (transpose pt))%py.

(** Lines 131-133: the weight of every entry by its area in the
    transformed image. *)
Definition radial_weighting (rmin rmax segments : Z) : result (array2 F) :=
  (let radweight :=
     map1 (fun r => of_int (r * 2) * np_pi / of_int segments)%f64
          (arange_int rmin rmax) in
   azi <- ones (of_int 1) segments ;;
   let rweighting := snd (meshgrid azi radweight) in
   Ok rweighting)%py.

Definition polarttransform (DP : array2 F) (ci cj : F) (rmin rmax segments : Z)
    (simple : bool) : result (array2 F) :=
  (disc <- discfloat ci cj rmin rmax segments ;;
   pt <- (if simple then nearest_lookup DP disc else bilinear_lookup DP disc) ;;
   rweighting <- radial_weighting rmin rmax segments ;;
   PTDP <- broadcast2 fmul pt rweighting ;;
   Ok PTDP)%py.

(** The azimuth grid of [discfloat] (line 46) and the positions the two
    lookups read, named for the statements below. *)
Definition azimuths (segments : Z) : array1 F :=
  arange (of_int 0) (of_int 2 * np_pi)%f64 (of_int 2 * np_pi / of_int segments)%f64.

(** Row and column coordinate of the sample at azimuth index [k] and
    radius index [ri]. *)
Definition sample_row (ci : F) (rmin segments : Z) (k ri : nat) : F :=
  (of_int (- (rmin + Z.of_nat ri)) * np_sin (at1 (azimuths segments) k) + ci)%f64.

Definition sample_col (cj : F) (rmin segments : Z) (k ri : nat) : F :=
  (of_int (rmin + Z.of_nat ri) * np_cos (at1 (azimuths segments) k) + cj)%f64.

(** The pixel indices computed for one sample coordinate [x]: the
    entries of the index arrays above. *)
Definition nearest_of (x : F) : Z := astype_int16 (np_round x).

Definition floor_of (x : F) : Z := astype_int16 (np_floor x).

Definition far_of (x : F) : Z :=
  if astype_int16 (np_ceil x) =? floor_of x
  then wrap16 (floor_of x + 1)
  else astype_int16 (np_ceil x).

(** Every index that the lookup computes for the sample at azimuth index
    [k] and radius index [ri] addresses a pixel of [DP]. *)
Definition sample_ok (DP : array2 F) (ci cj : F) (rmin segments : Z)
    (simple : bool) (k ri : nat) : bool :=
  let x := sample_row ci rmin segments k ri in
  let y := sample_col cj rmin segments k ri in
  if simple
  then index_ok (rows DP) (nearest_of x) && index_ok (cols DP) (nearest_of y)
  else index_ok (rows DP) (floor_of x) && index_ok (rows DP) (far_of x)
       && index_ok (cols DP) (floor_of y) && index_ok (cols DP) (far_of y).

Definition all_samples_ok (DP : array2 F) (ci cj : F) (rmin rmax segments : Z)
    (simple : bool) : Prop :=
  forall k ri : nat,
    (k < len (azimuths segments))%nat ->
    (ri < Z.to_nat (rmax - rmin))%nat ->
    sample_ok DP ci cj rmin segments simple k ri = true.

(** The area weight of radius index [ri] (line 131). *)
Definition area_weight (rmin segments : Z) (ri : nat) : F :=
  (of_int ((rmin + Z.of_nat ri) * 2) * np_pi / of_int segments)%f64.

(** The array that [discfloat] returns when [segments] is not zero. *)
Definition mesh (ci cj : F) (rmin rmax segments : Z) : array3 F :=
  mk_array3 (2%nat, len (azimuths segments), Z.to_nat (rmax - rmin))
    (fun c k ri =>
       match c with
       | O => sample_row ci rmin segments k ri
       | _ => sample_col cj rmin segments k ri
       end).

(** [DP[i, j]] for two valid indices. *)
Definition pixel (DP : array2 F) (i j : Z) : F :=
  at2 DP (norm_index (rows DP) i) (norm_index (cols DP) j).

(** The four weighting parameters of one sample at coordinates [(x, y)]
    (the entries of [wul], [wur], [wll], [wlr]). *)
Definition w_ul (x y : F) : F :=
  ((of_int 1 - (x - of_int (floor_of x))) * (of_int 1 - (y - of_int (floor_of y))))%f64.

Definition w_ur (x y : F) : F :=
  ((of_int 1 - (x - of_int (floor_of x))) * (of_int 1 - (of_int (far_of y) - y)))%f64.

Definition w_ll (x y : F) : F :=
  ((of_int 1 - (of_int (far_of x) - x)) * (of_int 1 - (y - of_int (floor_of y))))%f64.

Definition w_lr (x y : F) : F :=
  ((of_int 1 - (of_int (far_of x) - x)) * (of_int 1 - (of_int (far_of y) - y)))%f64.

(** What the lookup computes for one sample, before the area weighting. *)
Definition nearest_value (DP : array2 F) (x y : F) : F :=
  pixel DP (nearest_of x) (nearest_of y).

Definition bilinear_value (DP : array2 F) (x y : F) : F :=
  (pixel DP (floor_of x) (floor_of y) * w_ul x y
   + pixel DP (floor_of x) (far_of y) * w_ur x y
   + pixel DP (far_of x) (floor_of y) * w_ll x y
   + pixel DP (far_of x) (far_of y) * w_lr x y)%f64.

Definition lookup_value (DP : array2 F) (simple : bool) (x y : F) : F :=
  if simple then nearest_value DP x y else bilinear_value DP x y.

End Code.

(** ** Exact real arithmetic *)

Definition Zfloor (x : R) : Z := up x - 1.

Definition Zceil (x : R) : Z := - Zfloor (- x).

Definition Ztrunc (x : R) : Z := if Rle_dec 0 x then Zfloor x else Zceil x.

(** To the nearest integer, ties to the even one. *)
Definition Zrint (x : R) : Z :=
  let f := Zfloor x in
  if Rlt_dec (x - IZR f) (/ 2) then f
  else if Rlt_dec (/ 2) (x - IZR f) then f + 1
  else if Z.even f then f else f + 1.

#[export] Instance Exact : Float64 R := {|
  of_int := IZR;
  fadd := Rplus;
  fsub := Rminus;
  fmul := Rmult;
  fdiv := Rdiv;
  np_pi := PI;
  np_sin := sin;
  np_cos := cos;
  np_floor := fun x => IZR (Zfloor x);
  np_ceil := fun x => IZR (Zceil x);
  np_round := fun x => IZR (Zrint x);
  to_int := Ztrunc
|}.

(** ** IEEE binary64 *)

(** The float64 nearest to an integer. *)
Definition b64_of_int (z : Z) : float :=
  SF2Prim (binary_normalize prec emax z 0 false).

(** [np.pi]: the float64 nearest to pi. *)
Definition b64_pi : float := 0x1.921fb54442d18p+1%float.

Inductive rounding : Type := ToFloor | ToCeil | ToNearestEven | ToZero.

(** The integer that a finite float of sign [s], mantissa [m] and exponent
    [e] (value [(-1)^s * m * 2^e]) rounds to. *)
Definition round_to_Z (mode : rounding) (s : bool) (m : positive) (e : Z) : Z :=
  match e with
  | Zneg k =>
      let q := Z.shiftr (Zpos m) (Zpos k) in
      let r := Z.land (Zpos m) (Z.ones (Zpos k)) in
      let inexact := if r =? 0 then 0 else 1 in
      let mag :=
        match mode with
        | ToZero => q
        | ToFloor => if s then q + inexact else q
        | ToCeil => if s then q else q + inexact
        | ToNearestEven =>
            match 2 * r ?= Z.shiftl 1 (Zpos k) with
            | Lt => q
            | Gt => q + 1
            | Eq => if Z.odd q then q + 1 else q
            end
        end in
      if s then - mag else mag
  | _ => if s then - Z.shiftl (Zpos m) e else Z.shiftl (Zpos m) e
  end.

(** The float64 of an integral value [z] obtained from a float of sign
    [s]: a zero keeps the sign. *)
Definition b64_integral (s : bool) (z : Z) : float :=
  if z =? 0 then (if s then neg_zero else zero) else b64_of_int z.

Definition b64_round (mode : rounding) (x : float) : float :=
  match Prim2SF x with
  | S754_finite s m e =>
      match e with
      | Zneg _ => b64_integral s (round_to_Z mode s m e)
      | _ => x
      end
  | _ => x
  end.

(** Conversion to an integer: truncation; the conversion of a NaN or of
    an infinity is left at 0 (the code never converts one when its
    coordinates are finite). *)
Definition b64_to_int (x : float) : Z :=
  match Prim2SF x with
  | S754_finite s m e => round_to_Z ToZero s m e
  | _ => 0
  end.

(** Binary64 arithmetic; the two trigonometric functions are those of the
    platform's mathematical library. *)
Definition Binary64 (libm_sin libm_cos : float -> float) : Float64 float := {|
  of_int := b64_of_int;
  fadd := PrimFloat.add;
  fsub := PrimFloat.sub;
  fmul := PrimFloat.mul;
  fdiv := PrimFloat.div;
  np_pi := b64_pi;
  np_sin := libm_sin;
  np_cos := libm_cos;
  np_floor := b64_round ToFloor;
  np_ceil := b64_round ToCeil;
  np_round := b64_round ToNearestEven;
  to_int := b64_to_int
|}.


(** ** An example image *)

(** An image of one row: 10, 20, 30. *)
Definition image_1x3 : array2 R := of_rows 0%R 3 [[10; 20; 30]]%R.

End Polar.

(* ================================================================== *)
(** * io/read.py: the caller of [read_mib_to_np] *)
(* ================================================================== *)

Module ReadCallers.

Import Read.

(** What [read_mib_from_dmscan] uses of the object that [hs.load]
    returns: the shape of its [data] array. *)
Record signal : Type := mk_signal {
  signal_data_shape : list Z
}.

(** [xdim, ydim = shape] (line 119): unpacking a tuple that does not hold
    exactly two values raises [ValueError]. *)
Definition unpack2 (shape : list Z) : result (Z * Z) :=
  match shape with
  | [xdim; ydim] => Ok (xdim, ydim)
  | _ => Raise ValueError
  end.

Section Load.

(** [hs.load]: the signal stored at a path, or the exception that loading
    it raises. *)
Variable hs_load : string -> result signal.

(** Lines 118-124.  The trace records the accesses to the data file. *)
Definition read_mib_from_dmscan (fs : filesystem) (dmpath mibpath : string)
    (kx ky flybackpix bit_depth header footer : Z) : io ndarray4 :=
  bind (lift (hs_load dmpath)) (fun s =>
  bind (lift (unpack2 (signal_data_shape s))) (fun '(xdim, ydim) =>
  bind (read_mib_to_np fs mibpath xdim ydim kx ky flybackpix bit_depth header footer)
       (fun data4d =>
  ret data4d))).

End Load.

(** A loader that knows one scan image. *)
Definition load_one (path : string) (shape : list Z) : string -> result signal :=
  fun p => if String.eqb p path then Ok (mk_signal shape)
           else Raise FileNotFoundError.

(** The scan-column count of a result: the flyback columns are cut when
    [flybackpix > 0] (line 85), nothing is cut otherwise (line 87). *)
Definition kept_cols (ydim flybackpix : Z) : Z :=
  if flybackpix >? 0 then Z.max 0 ydim else ydim + flybackpix.

End ReadCallers.

(* ================================================================== *)
(** * io/directorylisting.py: notions used in the statements *)
(* ================================================================== *)

Module ListingNotions.

(** The order in which [sorted] arranges file names: that of [String.leb],
    character by character. *)
Definition le_string (a b : string) : Prop := String.leb a b = true.

End ListingNotions.

(* ================================================================== *)
(** * process/polar.py: notions and inputs used in the statements *)
(* ================================================================== *)

Module PolarNotions.

Import Numpy Polar.

Section Notions.

Context {F : Type} {F64 : Float64 F}.

(** The float64 value [x] is an integer, the integer [a]: [np.round],
    [np.floor] and [np.ceil] leave it unchanged, and its conversion to an
    integer type is [a]. *)
Definition is_integer (x : F) (a : Z) : Prop :=
  np_round x = x /\ np_floor x = x /\ np_ceil x = x /\ to_int x = a.

(** The sum of the four weighting parameters of a sample, added in the
    order of line 125. *)
Definition weights_sum (x y : F) : F :=
  (w_ul x y + w_ur x y + w_ll x y + w_lr x y)%f64.


End Notions.


(** Float64 images: one row (10, 20, 30), and two rows. *)
Definition image_1x3_f64 : array2 float :=
  of_rows 0%float 3 [[10; 20; 30]]%float.

Definition image_2x3_f64 : array2 float :=
  of_rows 0%float 3 [[10; 20; 30]; [40; 50; 60]]%float.

(** A mathematical library that is known at the argument 0 only, where
    every library is exact: sin 0 = 0 and cos 0 = 1.  Elsewhere it
    answers NaN.  It serves the inputs with a single azimuth (the
    azimuth 0) on which statements are evaluated in binary64. *)
Definition sin_at_zero (x : float) : float :=
  if PrimFloat.eqb x 0%float then x else nan.

Definition cos_at_zero (x : float) : float :=
  if PrimFloat.eqb x 0%float then 1%float else nan.

Definition Binary64_at_zero : Float64 float := Binary64 sin_at_zero cos_at_zero.

Definition f64_0_4 : float := 0x1.999999999999ap-2%float.

End PolarNotions.

(* ================================================================== *)
(** * Properties of io/read.py *)
(* ================================================================== *)

Module ReadFacts.

Import Read.

Lemma bit_depth_params_supported (bit_depth : Z) :
  supported bit_depth ->
  exists dt b, bit_depth_params bit_depth = Ok (dt, b) /\ b = dtype_itemsize dt.
Proof.
  intros [-> | [-> | ->]]; cbn; eauto.
Qed.

Lemma bit_depth_params_unsupported (bit_depth : Z) :
  ~ supported bit_depth ->
  bit_depth_params bit_depth
  = Raise (Exception "Incorrect data type selected, please enter 12, 6 or 1").
Proof.
  unfold supported, bit_depth_params; intros H.
  destruct (Z.eqb_spec bit_depth 12); [tauto|].
  destruct (Z.eqb_spec bit_depth 6); [tauto|].
  destruct (Z.eqb_spec bit_depth 1); [tauto|].
  reflexivity.
Qed.

Lemma no_exception_bind {A B : Type} (m : io A) (k : A -> io B) :
  no_exception m -> (forall a, no_exception (k a)) -> no_exception (bind m k).
Proof.
  intros Hm Hk msg. unfold bind.
  destruct m as [t [a | e]]; cbn.
  - specialize (Hk a msg). destruct (k a) as [t' r]; exact Hk.
  - intros Heq. apply (Hm msg). cbn. now inversion Heq.
Qed.

Lemma no_exception_try {A : Type} (body handler : io A) :
  no_exception body -> no_exception handler ->
  no_exception (try_except_ValueError body handler).
Proof.
  intros Hb Hh msg. unfold try_except_ValueError.
  destruct body as [t [a | e]]; cbn; try discriminate.
  destruct e; try (exact (Hb msg)).
  specialize (Hh msg). destruct handler as [t' r]; exact Hh.
Qed.

Lemma no_exception_ret {A : Type} (a : A) : no_exception (ret a).
Proof. intros msg; discriminate. Qed.

Lemma no_exception_np_dtype header dt kx ky footer :
  no_exception (lift (np_dtype header dt kx ky footer)).
Proof.
  intros msg; unfold lift, np_dtype; cbn.
  destruct (_ || _); discriminate.
Qed.

Lemma no_exception_np_memmap fs path ft shape :
  no_exception (np_memmap fs path ft shape).
Proof.
  intros msg; unfold np_memmap; cbn.
  destruct (fs path); [|discriminate].
  repeat (match goal with |- context [if ?b then _ else _] => destruct b end;
          try discriminate).
Qed.

Lemma no_exception_getsize fs path : no_exception (os_path_getsize fs path).
Proof.
  intros msg; unfold os_path_getsize; cbn. destruct (fs path); discriminate.
Qed.

Lemma no_exception_int_truediv a b : no_exception (lift (int_truediv a b)).
Proof.
  intros msg; unfold lift, int_truediv; cbn. destruct (b =? 0); discriminate.
Qed.

Lemma no_exception_reshape2 m a b : no_exception (lift (reshape2 m a b)).
Proof.
  intros msg; unfold lift, reshape2; cbn. destruct (_ =? _); discriminate.
Qed.

Create HintDb noexn.

#[local] Hint Resolve no_exception_bind no_exception_try no_exception_ret
  no_exception_np_dtype no_exception_np_memmap no_exception_getsize
  no_exception_int_truediv no_exception_reshape2 : noexn.

(** For a supported bit depth the call raises no bare [Exception]. *)
Lemma read_mib_supported_no_exception
    fs filepath xdim ydim kx ky flybackpix bit_depth header footer :
  supported bit_depth ->
  no_exception
    (read_mib_to_np fs filepath xdim ydim kx ky flybackpix bit_depth header footer).
Proof.
  intros Hs. unfold read_mib_to_np.
  destruct (bit_depth_params_supported _ Hs) as (dt & b & -> & _).
  apply no_exception_bind; [intros msg; discriminate | intros [data_type b']].
  apply no_exception_bind.
  - apply no_exception_try.
    + apply no_exception_bind; [auto with noexn | intros ft].
      apply no_exception_bind; [auto with noexn | intros data].
      auto with noexn.
    + apply no_exception_bind; [auto with noexn | intros file_size].
      apply no_exception_bind; [auto with noexn | intros xd].
      apply no_exception_bind; [auto with noexn | intros ft].
      apply no_exception_bind; [auto with noexn | intros data].
      auto with noexn.
  - intros [xd data]. apply no_exception_bind; [auto with noexn | intros d].
    destruct (flybackpix >? 0); auto with noexn.
Qed.

(** C6.  [read_mib_to_np] raises the unsupported-configuration error
    (the bare [Exception] of line 55) exactly when [bit_depth] is none of
    12, 6 and 1; depth 12 selects a 2-byte unsigned element, depths 6 and 1
    a 1-byte unsigned element; and when the error is raised nothing of the
    file system has been accessed and no array is returned. *)
Theorem read_mib_unsupported_bit_depth :
  forall (fs : filesystem) (filepath : string)
         (xdim ydim kx ky flybackpix bit_depth header footer : Z),
    let call :=
      read_mib_to_np fs filepath xdim ydim kx ky flybackpix bit_depth header footer in
    ((exists msg, snd call = Raise (Exception msg)) <-> ~ supported bit_depth)
    /\ (bit_depth_params 12 = Ok (uint16, 2) /\ dtype_itemsize uint16 = 2)
    /\ (bit_depth_params 6 = Ok (uint8, 1) /\ bit_depth_params 1 = Ok (uint8, 1)
        /\ dtype_itemsize uint8 = 1)
    /\ (~ supported bit_depth ->
        call = ([], Raise (Exception
                  "Incorrect data type selected, please enter 12, 6 or 1"))).
Proof.
  intros fs filepath xdim ydim kx ky flybackpix bit_depth header footer call.
  assert (Hbad : ~ supported bit_depth ->
                 call = ([], Raise (Exception
                   "Incorrect data type selected, please enter 12, 6 or 1"))).
  { intros Hn. unfold call, read_mib_to_np.
    rewrite (bit_depth_params_unsupported _ Hn). reflexivity. }
  repeat split; try reflexivity; try exact Hbad.
  - intros [msg Hmsg] Hs.
    exact (read_mib_supported_no_exception fs filepath xdim ydim kx ky flybackpix
             bit_depth header footer Hs msg Hmsg).
  - intros Hn. rewrite (Hbad Hn). cbn. eauto.
Qed.

(** ** Inversion of successful calls *)

Lemma bind_ok_inv {A B : Type} (m : io A) (k : A -> io B) t b :
  bind m k = (t, Ok b) ->
  exists t1 a t2, m = (t1, Ok a) /\ k a = (t2, Ok b) /\ t = (t1 ++ t2)%list.
Proof.
  unfold bind. destruct m as [t1 [a | e]]; [|discriminate].
  destruct (k a) as [t2 r] eqn:Hk. intros H; inversion H; subst.
  exists t1, a, t2. auto.
Qed.

Lemma lift_ok_inv {A : Type} (r : result A) t a :
  lift r = (t, Ok a) -> r = Ok a /\ t = [].
Proof. unfold lift; intros H; inversion H; auto. Qed.

Lemma ret_ok_inv {A : Type} (x : A) t a : ret x = (t, Ok a) -> a = x /\ t = [].
Proof. unfold ret; intros H; inversion H; auto. Qed.

Lemma try_ok_inv {A : Type} (body handler : io A) t a :
  try_except_ValueError body handler = (t, Ok a) ->
  body = (t, Ok a)
  \/ exists t1 t2, body = (t1, Raise ValueError) /\ handler = (t2, Ok a)
                   /\ t = (t1 ++ t2)%list.
Proof.
  unfold try_except_ValueError. destruct body as [t1 [x | e]].
  - intros H; left; exact H.
  - destruct e; try discriminate.
    destruct handler as [t2 r]. intros H; inversion H; subst.
    right. exists t1, t2. auto.
Qed.

Lemma np_dtype_ok_inv header dt kx ky footer ft :
  np_dtype header dt kx ky footer = Ok ft ->
  ft = mk_frametype header dt (kx, ky) footer
  /\ 0 <= header /\ 0 <= kx /\ 0 <= ky /\ 0 <= footer.
Proof.
  unfold np_dtype.
  destruct (Z.ltb_spec header 0) as [?|Hh], (Z.ltb_spec kx 0) as [?|Hkx],
    (Z.ltb_spec ky 0) as [?|Hky], (Z.ltb_spec footer 0) as [?|Hf];
    cbn; try discriminate.
  intros Heq; inversion Heq; auto.
Qed.

Lemma np_memmap_ok_inv fs path ft shape t m :
  np_memmap fs path ft shape = (t, Ok m) ->
  m = mk_memmap path ft shape (fst shape * snd shape * itemsize ft)
  /\ 0 <= fst shape /\ 0 <= snd shape
  /\ exists flen, fs path = Some flen
                  /\ 0 <= fst shape * snd shape * itemsize ft <= flen.
Proof.
  unfold np_memmap. intros H; inversion H as [[Ht Hr]]; clear H.
  destruct (fs path) as [flen|]; [|discriminate].
  cbv zeta in Hr.
  destruct (Z.ltb_spec (fst shape * snd shape * itemsize ft) 0); [discriminate|].
  destruct (_ && _); [discriminate|].
  destruct (Z.ltb_spec flen (fst shape * snd shape * itemsize ft)); [discriminate|].
  destruct (Z.ltb_spec (fst shape) 0); [discriminate|].
  destruct (Z.ltb_spec (snd shape) 0); [discriminate|].
  cbn in Hr. inversion Hr; subst.
  repeat split; auto. exists flen; auto.
Qed.

(** Every successful call: the element type is a supported one, the file
    exists, the outer dimension [xd] is the requested one or the one
    recomputed from the size of the file, the view fits in the file, and
    the result is the payload of the view, with the flyback columns cut
    when [flybackpix > 0]. *)
Lemma read_mib_ok_inv
    fs filepath xdim ydim kx ky flybackpix bit_depth header footer t a :
  read_mib_to_np fs filepath xdim ydim kx ky flybackpix bit_depth header footer
  = (t, Ok a) ->
  exists dt b xd flen,
    bit_depth_params bit_depth = Ok (dt, b)
    /\ fs filepath = Some flen
    /\ (xd = xdim
        \/ int_truediv flen ((ydim + 1) * (kx * ky * b + header + footer)) = Ok xd)
    /\ 0 <= xd /\ 0 <= ydim + flybackpix
    /\ 0 <= mm_nbytes (base a) <= flen
    /\ base a = view_of filepath header dt kx ky footer xd (ydim + flybackpix)
    /\ a = (if flybackpix >? 0
            then slice_scan_cols (field_data (base a)) (- flybackpix)
            else field_data (base a)).
Proof.
  unfold read_mib_to_np. intros H.
  apply bind_ok_inv in H as (t1 & [dt b] & t2 & Hbd & H & ->).
  apply lift_ok_inv in Hbd as [Hbd ->].
  apply bind_ok_inv in H as (t3 & [xd data] & t4 & Htry & H & ->).
  apply bind_ok_inv in H as (t5 & data' & t6 & Hre & H & ->).
  apply lift_ok_inv in Hre as [Hre ->].
  assert (Hview : exists flen,
             fs filepath = Some flen
             /\ (xd = xdim
                 \/ int_truediv flen ((ydim + 1) * (kx * ky * b + header + footer))
                    = Ok xd)
             /\ 0 <= xd /\ 0 <= ydim + flybackpix
             /\ 0 <= mm_nbytes data <= flen
             /\ data = view_of filepath header dt kx ky footer xd (ydim + flybackpix)).
  { apply try_ok_inv in Htry as [Hb | (u1 & u2 & _ & Hh & _)].
    - apply bind_ok_inv in Hb as (? & ft & ? & Hft & Hb & _).
      apply lift_ok_inv in Hft as [Hft _].
      apply np_dtype_ok_inv in Hft as (-> & _).
      apply bind_ok_inv in Hb as (? & m & ? & Hm & Hb & _).
      apply ret_ok_inv in Hb as [Hb _]. inversion Hb; subst.
      apply np_memmap_ok_inv in Hm as (-> & Hx & Hy & flen & Hfs & Hle).
      exists flen. cbn in *. repeat split; auto; lia.
    - apply bind_ok_inv in Hh as (? & file_size & ? & Hsz & Hh & _).
      apply bind_ok_inv in Hh as (? & xd' & ? & Hq & Hh & _).
      apply lift_ok_inv in Hq as [Hq _].
      apply bind_ok_inv in Hh as (? & ft & ? & Hft & Hh & _).
      apply lift_ok_inv in Hft as [Hft _].
      apply np_dtype_ok_inv in Hft as (-> & _).
      apply bind_ok_inv in Hh as (? & m & ? & Hm & Hh & _).
      apply ret_ok_inv in Hh as [Hh _]. inversion Hh; subst.
      apply np_memmap_ok_inv in Hm as (-> & Hx & Hy & flen & Hfs & Hle).
      unfold os_path_getsize in Hsz. rewrite Hfs in Hsz.
      injection Hsz as _ Hfz. subst file_size.
      exists flen. cbn in *. repeat split; auto; lia. }
  destruct Hview as (flen & Hfs & Hxd & Hx & Hy & Hle & ->).
  unfold reshape2 in Hre. cbn in Hre. rewrite Z.eqb_refl in Hre.
  inversion Hre; subst data'; clear Hre.
  exists dt, b, xd, flen.
  destruct (flybackpix >? 0); apply ret_ok_inv in H as [-> _]; cbn;
    repeat split; auto; cbn in Hle; lia.
Qed.

(** X3.  A successful call maps no byte beyond the end of the file: the
    view it returns covers at most the bytes the file holds. *)
Theorem read_mib_within_file
    fs filepath xdim ydim kx ky flybackpix bit_depth header footer t a :
  read_mib_to_np fs filepath xdim ydim kx ky flybackpix bit_depth header footer
  = (t, Ok a) ->
  exists flen, fs filepath = Some flen /\ 0 <= mm_nbytes (base a) <= flen.
Proof.
  intros H. apply read_mib_ok_inv in H as (dt & b & xd & flen & _ & Hfs & _ & _ & _ & Hle & _).
  eauto.
Qed.

Lemma read_mib_within_file_witness :
  exists flen,
    single_file "scan.mib" 2352 "scan.mib" = Some flen
    /\ 0 <= mm_nbytes
              (base (mk_ndarray4 2 3 2 2 (view_of "scan.mib" 384 uint16 2 2 0 2 3)))
         <= flen.
Proof.
  apply (read_mib_within_file (single_file "scan.mib" 2352) "scan.mib"
           2 3 2 2 0 12 384 0 [EvMemmap "scan.mib"]).
  reflexivity.
Defined.

(** C10.  A successful call with [flybackpix = 0] returns the payload
    view itself: the flyback slice of line 85 is not applied (applying it
    with a zero count would leave no scan column), and the scan-column
    dimension of the result is [ydim]. *)
Theorem read_mib_zero_flyback_keeps_columns :
  forall (fs : filesystem) (filepath : string)
         (xdim ydim kx ky bit_depth header footer : Z)
         (t : list fs_event) (a : ndarray4),
    read_mib_to_np fs filepath xdim ydim kx ky 0 bit_depth header footer = (t, Ok a) ->
    scan_cols a = ydim
    /\ a = field_data (base a)
    /\ scan_cols (slice_scan_cols (field_data (base a)) (- 0)) = 0.
Proof.
  intros fs filepath xdim ydim kx ky bit_depth header footer t a H.
  apply read_mib_ok_inv in H
    as (dt & b & xd & flen & _ & _ & _ & _ & Hy & _ & Hbase & Ha).
  cbn in Ha. rewrite Ha, Hbase. cbn. unfold slice_stop_len. cbn.
  repeat split; lia.
Qed.

(** A complete file of two scan rows and three scan columns, read with no
    flyback pixel. *)
Lemma read_mib_zero_flyback_keeps_columns_witness :
  scan_cols
    (mk_ndarray4 2 3 2 2 (view_of "scan.mib" 384 uint16 2 2 0 2 3)) = 3
  /\ mk_ndarray4 2 3 2 2 (view_of "scan.mib" 384 uint16 2 2 0 2 3)
     = field_data (base (mk_ndarray4 2 3 2 2 (view_of "scan.mib" 384 uint16 2 2 0 2 3)))
  /\ scan_cols
       (slice_scan_cols
          (field_data
             (base (mk_ndarray4 2 3 2 2 (view_of "scan.mib" 384 uint16 2 2 0 2 3))))
          (- 0)) = 0.
Proof.
  apply (read_mib_zero_flyback_keeps_columns
           (single_file "scan.mib" 2352) "scan.mib" 2 3 2 2 12 384 0
           [EvMemmap "scan.mib"]).
  reflexivity.
Defined.

(** ** Truncated acquisitions *)

Lemma itemsize_record_bytes header dt kx ky footer :
  itemsize (mk_frametype header dt (kx, ky) footer)
  = record_bytes kx ky (dtype_itemsize dt) header footer.
Proof. unfold itemsize, record_bytes; cbn. lia. Qed.

(** X1.  With the default [flybackpix = 1] the recovery works: a file that
    holds [k] complete scan rows ([1 <= k < xdim], each of [ydim + 1]
    records) is read into [k] scan rows of [ydim] scan columns, the view
    ends exactly at the end of the file, and the file is accessed three
    times (the failed mapping, the size query and the second mapping). *)
Theorem read_mib_truncated_default_flyback
    fs filepath xdim ydim kx ky bit_depth header footer k dt b :
  bit_depth_params bit_depth = Ok (dt, b) ->
  b = dtype_itemsize dt ->
  0 <= header -> 0 <= kx -> 0 <= ky -> 0 <= footer ->
  0 < record_bytes kx ky b header footer ->
  0 <= ydim -> 1 <= k < xdim ->
  fs filepath = Some (k * (ydim + 1) * record_bytes kx ky b header footer) ->
  exists a,
    read_mib_to_np fs filepath xdim ydim kx ky 1 bit_depth header footer
    = ([EvMemmap filepath; EvGetsize filepath; EvMemmap filepath], Ok a)
    /\ scan_rows a = k /\ scan_cols a = ydim
    /\ det_rows a = kx /\ det_cols a = ky
    /\ mm_nbytes (base a) = k * (ydim + 1) * record_bytes kx ky b header footer.
Proof.
  intros Hbd Hb Hh Hkx Hky Hf Hrec Hy Hk Hfs.
  unfold read_mib_to_np. rewrite Hbd. cbn [lift bind app].
  assert (Hdt : np_dtype header dt kx ky footer
                = Ok (mk_frametype header dt (kx, ky) footer)).
  { unfold np_dtype.
    destruct (Z.ltb_spec header 0), (Z.ltb_spec kx 0), (Z.ltb_spec ky 0),
      (Z.ltb_spec footer 0); cbn; try lia; reflexivity. }
  rewrite Hdt. cbn [lift bind app].
  unfold np_memmap, os_path_getsize. rewrite Hfs. cbn [fst snd].
  rewrite itemsize_record_bytes, <- Hb.
  set (rec := record_bytes kx ky b header footer) in *.
  assert (Hq : rec = kx * ky * b + header + footer) by reflexivity.
  rewrite <- Hq.
  assert (H1 : 0 < (ydim + 1) * rec) by nia.
  assert (H2 : k * (ydim + 1) * rec < xdim * (ydim + 1) * rec) by nia.
  assert (H3 : 0 < k * (ydim + 1) * rec) by nia.
  cbv zeta.
  destruct (Z.ltb_spec (xdim * (ydim + 1) * rec) 0); [lia|].
  destruct (Z.eqb_spec (xdim * (ydim + 1) * rec) 0); [lia|].
  cbn [andb].
  destruct (Z.ltb_spec (k * (ydim + 1) * rec) (xdim * (ydim + 1) * rec)); [|lia].
  cbn [try_except_ValueError bind lift app].
  unfold int_truediv.
  destruct (Z.eqb_spec ((ydim + 1) * rec) 0); [lia|].
  assert (Hquot : Z.quot (k * (ydim + 1) * rec) ((ydim + 1) * rec) = k).
  { rewrite <- Z.mul_assoc. apply Z.quot_mul. lia. }
  rewrite Hquot.
  destruct (Z.ltb_spec (k * (ydim + 1) * rec) 0); [lia|].
  destruct (Z.eqb_spec (k * (ydim + 1) * rec) 0); [lia|].
  cbn [andb].
  destruct (Z.ltb_spec (k * (ydim + 1) * rec) (k * (ydim + 1) * rec)); [lia|].
  destruct (Z.ltb_spec k 0); [lia|].
  destruct (Z.ltb_spec (ydim + 1) 0); [lia|].
  cbn [orb bind ret app lift].
  unfold reshape2. cbn [mm_shape fst snd]. rewrite Z.eqb_refl.
  cbn [bind ret app lift]. change (1 >? 0) with true. cbn iota.
  eexists. split; [reflexivity|].
  unfold slice_scan_cols, field_data, slice_stop_len.
  cbn [scan_rows scan_cols det_rows det_cols base mm_shape mm_dtype mm_nbytes
       data_shape fst snd].
  change (- (1) <? 0) with true. cbv iota.
  repeat split; lia.
Qed.

(** Two recorded scan rows of a scan with [ydim = 1], three rows
    requested. *)
Lemma read_mib_truncated_default_flyback_witness :
  exists a,
    read_mib_to_np (single_file "scan.mib" (2 * (1 + 1) * 392)) "scan.mib"
                   3 1 2 2 1 12 384 0
    = ([EvMemmap "scan.mib"; EvGetsize "scan.mib"; EvMemmap "scan.mib"], Ok a)
    /\ scan_rows a = 2 /\ scan_cols a = 1
    /\ det_rows a = 2 /\ det_cols a = 2
    /\ mm_nbytes (base a) = 2 * (1 + 1) * record_bytes 2 2 2 384 0.
Proof.
  apply (read_mib_truncated_default_flyback
           (single_file "scan.mib" (2 * (1 + 1) * 392)) "scan.mib"
           3 1 2 2 12 384 0 2 uint16 2); try reflexivity; lia.
Defined.

(** C3, at two inputs.  A file that holds exactly two complete scan rows
    of a scan with [ydim = 1], where three rows were requested:
    with [flybackpix = 2] (rows of three records) the recomputed outer
    dimension is [6 / 2 = 3], the second mapping does not fit in the file
    and the call raises [ValueError]; with [flybackpix = 0] (rows of one
    record) the recomputed outer dimension is [2 / 2 = 1] and only one of
    the two recorded rows is returned. *)
Theorem read_mib_truncated_flyback_mismatch :
  read_mib_to_np (single_file "scan.mib" (2 * (1 + 2) * 392)) "scan.mib"
                 3 1 2 2 2 12 384 0
  = ([EvMemmap "scan.mib"; EvGetsize "scan.mib"; EvMemmap "scan.mib"],
     Raise ValueError)
  /\ read_mib_to_np (single_file "scan.mib" (2 * (1 + 0) * 392)) "scan.mib"
                    3 1 2 2 0 12 384 0
     = ([EvMemmap "scan.mib"; EvGetsize "scan.mib"; EvMemmap "scan.mib"],
        Ok (mk_ndarray4 1 1 2 2 (view_of "scan.mib" 384 uint16 2 2 0 1 1))).
Proof.
  split; reflexivity.
Qed.

End ReadFacts.

(* ================================================================== *)
(** * Properties of io/directorylisting.py *)
(* ================================================================== *)

Module DirectoryListingFacts.

Import DirectoryListing.

(** A text pattern: the matching names, sorted. *)
Lemma file_list_text_pattern os_listdir fnmatch path pattern paths :
  os_listdir path = Ok paths ->
  file_list os_listdir fnmatch path (PyStr pattern)
  = mk_outcome []
      (Ok (RetList
             (sorted
                (fold_left
                   (fun files file =>
                      if fnmatch file pattern then (files ++ [file])%list else files)
                   paths [])))).
Proof. intros H. unfold file_list. rewrite H. reflexivity. Qed.

(** When the directory cannot be listed, the error of the listing is the
    error of the call, whatever the pattern. *)
Lemma file_list_listing_error os_listdir fnmatch path searchterm e :
  os_listdir path = Raise e ->
  file_list os_listdir fnmatch path searchterm = mk_outcome [] (Raise e).
Proof. intros H. unfold file_list. rewrite H. reflexivity. Qed.

(** C9, as the code has it.  For a directory that can be listed and a
    search pattern that is not a text string, [file_list] raises nothing:
    it prints one line, "Error: use a text string as search term!", and
    ends without a [return], so the caller receives [None] and no list. *)
Theorem file_list_non_text_pattern :
  forall (os_listdir : string -> result (list string))
         (fnmatch : string -> string -> bool)
         (path : string) (searchterm : py_value) (paths : list string),
    os_listdir path = Ok paths ->
    isinstance_str searchterm = false ->
    file_list os_listdir fnmatch path searchterm
    = mk_outcome ["Error: use a text string as search term!"] (Ok RetNone).
Proof.
  intros os_listdir fnmatch path searchterm paths Hl Hs.
  unfold file_list. rewrite Hl.
  destruct searchterm; cbn in Hs; try discriminate; reflexivity.
Qed.

Lemma file_list_non_text_pattern_witness :
  file_list listdir_two match_all "/data/" PyNone
  = mk_outcome ["Error: use a text string as search term!"] (Ok RetNone).
Proof.
  apply (file_list_non_text_pattern listdir_two match_all "/data/" PyNone
           ["b.txt"; "a.h5"]); reflexivity.
Defined.

(** C9, as stated, fails: with the integer 5 as pattern the call does not
    fail with any error; it returns normally, and what it returns is
    [None]. *)
Lemma file_list_non_text_pattern_returns :
  isinstance_str (PyInt 5) = false
  /\ value (file_list listdir_two match_all "/data/" (PyInt 5)) = Ok RetNone
  /\ (forall e, value (file_list listdir_two match_all "/data/" (PyInt 5))
                <> Raise e).
Proof.
  repeat split. intros e; discriminate.
Qed.

End DirectoryListingFacts.

(* ================================================================== *)
(** * Properties of process/polar.py, for any float64 arithmetic *)
(* ================================================================== *)

Module PolarFacts.

Import Numpy Polar.

(** ** Positions of a row-major array *)

Lemma flat_div (N k ri : nat) : (ri < N)%nat -> ((k * N + ri) / N = k)%nat.
Proof.
  intros H. rewrite Nat.div_add_l by lia. rewrite Nat.div_small by lia. lia.
Qed.

Lemma flat_mod (N k ri : nat) : (ri < N)%nat -> ((k * N + ri) mod N = ri)%nat.
Proof.
  intros H. rewrite Nat.add_comm, Nat.Div0.mod_add. apply Nat.mod_small; lia.
Qed.

Lemma flat_lt (S N k ri : nat) :
  (k < S)%nat -> (ri < N)%nat -> (k * N + ri < S * N)%nat.
Proof. intros; nia. Qed.

Lemma unflat_lt (S N p : nat) :
  (p < S * N)%nat -> (p / N < S)%nat /\ (p mod N < N)%nat.
Proof.
  intros H. assert (N <> 0)%nat by (intros ->; lia).
  split; [apply Nat.Div0.div_lt_upper_bound; lia | apply Nat.mod_upper_bound; lia].
Qed.

Lemma bidx_lt (n i : nat) : (i < n)%nat -> bidx n i = i.
Proof.
  unfold bidx. destruct (Nat.eqb_spec n 1); [intros; lia | reflexivity].
Qed.

(** ** Indexing with integer arrays *)

Lemma forallb_false_ex {A : Type} (f : A -> bool) (l : list A) :
  forallb f l = false -> exists x, In x l /\ f x = false.
Proof.
  induction l as [|x l IH]; cbn; [discriminate|].
  destruct (f x) eqn:Hx; cbn.
  - intros H. destruct (IH H) as (y & Hy & Hfy). exists y. auto.
  - intros _. exists x. auto.
Qed.

Lemma take2_ok {A : Type} (a : array2 A) (ri ci : array1 Z) :
  (forall p, (p < len ri)%nat ->
             index_ok (rows a) (at1 ri p) && index_ok (cols a) (at1 ci p) = true) ->
  take2 a ri ci
  = Ok (mk_array1 (len ri)
          (fun p => at2 a (norm_index (rows a) (at1 ri p))
                          (norm_index (cols a) (at1 ci p)))).
Proof.
  intros H. unfold take2.
  replace (forallb _ _) with true; [reflexivity|].
  symmetry. apply forallb_forall. intros p Hp. apply in_seq in Hp. apply H. lia.
Qed.

Lemma take2_raise {A : Type} (a : array2 A) (ri ci : array1 Z) (p : nat) :
  (p < len ri)%nat ->
  index_ok (rows a) (at1 ri p) && index_ok (cols a) (at1 ci p) = false ->
  take2 a ri ci = Raise IndexError.
Proof.
  intros Hp Hbad. unfold take2.
  destruct (forallb _ _) eqn:Hall; [|reflexivity].
  rewrite forallb_forall in Hall.
  rewrite Hall in Hbad; [discriminate | apply in_seq; lia].
Qed.

Lemma take2_cases {A : Type} (a : array2 A) (ri ci : array1 Z) :
  (take2 a ri ci
   = Ok (mk_array1 (len ri)
           (fun p => at2 a (norm_index (rows a) (at1 ri p))
                           (norm_index (cols a) (at1 ci p))))
   /\ forall p, (p < len ri)%nat ->
        index_ok (rows a) (at1 ri p) && index_ok (cols a) (at1 ci p) = true)
  \/ (take2 a ri ci = Raise IndexError
      /\ exists p, (p < len ri)%nat
           /\ index_ok (rows a) (at1 ri p) && index_ok (cols a) (at1 ci p) = false).
Proof.
  unfold take2. destruct (forallb _ _) eqn:Hall.
  - left. split; [reflexivity|]. intros p Hp.
    rewrite forallb_forall in Hall. apply Hall, in_seq. lia.
  - right. split; [reflexivity|].
    apply forallb_false_ex in Hall as (p & Hin & Hp). apply in_seq in Hin.
    exists p. split; [lia | exact Hp].
Qed.


(** ** Reshaping, transposition and broadcasting *)

Lemma reshape_3_2_spec {A : Type} (a : array3 A) (S N : nat) :
  shape3 a = (2%nat, S, N) ->
  exists b, reshape_3_2 a 2 (S * N) = Ok b
            /\ shape b = (2%nat, (S * N)%nat)
            /\ forall c p, (c < 2)%nat -> (p < S * N)%nat ->
                 at2 b c p = at3 a c (p / N) (p mod N).
Proof.
  intros Hs. unfold reshape_3_2, dim0, dim1, dim2. rewrite Hs. cbn [fst snd].
  replace (Nat.eqb (2 * S * N) (2 * (S * N))) with true
    by (symmetry; apply Nat.eqb_eq; lia).
  eexists. split; [reflexivity|]. split; [reflexivity|].
  intros c p Hc Hp. cbn [at2].
  rewrite (flat_div (S * N) c p Hp), (flat_mod (S * N) c p Hp). reflexivity.
Qed.

Lemma reshape_2_1_spec {A : Type} (a : array2 A) :
  exists b, reshape_2_1 a (rows a * cols a) = Ok b
            /\ len b = (rows a * cols a)%nat
            /\ forall p, at1 b p = at2 a (p / cols a) (p mod cols a).
Proof.
  unfold reshape_2_1. rewrite Nat.eqb_refl.
  eexists. split; [reflexivity|]. split; reflexivity.
Qed.

Lemma reshape_1_2_spec {A : Type} (a : array1 A) (S N : nat) :
  len a = (S * N)%nat ->
  exists b, reshape_1_2 a S N = Ok b
            /\ shape b = (S, N)
            /\ forall i j, at2 b i j = at1 a (i * N + j).
Proof.
  intros Hl. unfold reshape_1_2. rewrite Hl, Nat.eqb_refl.
  eexists. split; [reflexivity|]. split; reflexivity.
Qed.

Lemma broadcast_axis_cases (n m : nat) :
  (broadcast_axis n m = Ok n /\ n = m)
  \/ (broadcast_axis n m = Ok m /\ n <> m /\ n = 1%nat)
  \/ (broadcast_axis n m = Ok n /\ n <> m /\ n <> 1%nat /\ m = 1%nat)
  \/ (broadcast_axis n m = Raise ValueError /\ n <> m /\ n <> 1%nat /\ m <> 1%nat).
Proof.
  unfold broadcast_axis.
  destruct (Nat.eqb_spec n m); [left; auto|].
  destruct (Nat.eqb_spec n 1); [right; left; auto|].
  destruct (Nat.eqb_spec m 1); [right; right; left; auto | right; right; right; auto].
Qed.

Lemma broadcast2_same_shape {A B C : Type} (f : A -> B -> C)
    (a : array2 A) (b : array2 B) :
  shape a = shape b ->
  exists c, broadcast2 f a b = Ok c
            /\ shape c = shape a
            /\ forall i j, (i < rows a)%nat -> (j < cols a)%nat ->
                 at2 c i j = f (at2 a i j) (at2 b i j).
Proof.
  intros Hs. unfold broadcast2, broadcast_axis, rows, cols. rewrite <- Hs.
  rewrite !Nat.eqb_refl. cbn [rbind].
  eexists. split; [reflexivity|]. split; [now destruct (shape a)|].
  intros i j Hi Hj. cbn [at2]. rewrite !bidx_lt by assumption. reflexivity.
Qed.

(** A broadcast operation raises nothing but [ValueError]. *)
Lemma broadcast2_not_IndexError {A B C : Type} (f : A -> B -> C)
    (a : array2 A) (b : array2 B) :
  broadcast2 f a b <> Raise IndexError.
Proof.
  unfold broadcast2.
  destruct (broadcast_axis_cases (rows a) (rows b)) as [[-> _]|[[-> _]|[[-> _]|[-> _]]]];
    cbn [rbind]; try discriminate;
  destruct (broadcast_axis_cases (cols a) (cols b)) as [[-> _]|[[-> _]|[[-> _]|[-> _]]]];
    cbn [rbind]; discriminate.
Qed.

(** ** The two lookups, for any float64 arithmetic *)

Section Generic.

Context {F : Type} {F64 : Float64 F}.

Lemma discfloat_eq (ci cj : F) (rmin rmax segments : Z) :
  segments <> 0 ->
  discfloat ci cj rmin rmax segments = Ok (mesh ci cj rmin rmax segments).
Proof.
  intros H. unfold discfloat, py_truediv.
  destruct (Z.eqb_spec segments 0); [contradiction | reflexivity].
Qed.

Lemma discfloat_zero_segments (ci cj : F) (rmin rmax : Z) :
  discfloat ci cj rmin rmax 0 = Raise ZeroDivisionError.
Proof. reflexivity. Qed.

Lemma radial_weighting_spec (rmin rmax segments : Z) :
  0 <= segments ->
  exists rw, radial_weighting rmin rmax segments = Ok rw
             /\ shape rw = (Z.to_nat (rmax - rmin), Z.to_nat segments)
             /\ forall i j, at2 rw i j = area_weight rmin segments i.
Proof.
  intros H. unfold radial_weighting, ones.
  destruct (Z.ltb_spec segments 0); [lia|]. cbn [rbind].
  eexists. split; [reflexivity|]. split; reflexivity.
Qed.

Lemma radial_weighting_negative (rmin rmax segments : Z) :
  segments < 0 -> radial_weighting rmin rmax segments = Raise ValueError.
Proof.
  intros H. unfold radial_weighting, ones.
  destruct (Z.ltb_spec segments 0); [reflexivity | lia].
Qed.

Variables (DP : array2 F) (ci cj : F) (rmin rmax segments : Z).

Abbreviation S := (len (azimuths segments)).
Abbreviation N := (Z.to_nat (rmax - rmin)).
Abbreviation x_at k ri := (sample_row ci rmin segments k ri).
Abbreviation y_at k ri := (sample_col cj rmin segments k ri).

Lemma nearest_lookup_cases :
  (exists pt,
     nearest_lookup DP (mesh ci cj rmin rmax segments) = Ok pt
     /\ shape pt = (N, S)
     /\ (forall k ri, (k < S)%nat -> (ri < N)%nat ->
           at2 pt ri k = nearest_value DP (x_at k ri) (y_at k ri))
     /\ (forall k ri, (k < S)%nat -> (ri < N)%nat ->
           sample_ok DP ci cj rmin segments true k ri = true))
  \/ (nearest_lookup DP (mesh ci cj rmin rmax segments) = Raise IndexError
      /\ exists k ri, (k < S)%nat /\ (ri < N)%nat
            /\ sample_ok DP ci cj rmin segments true k ri = false).
Proof.
  unfold nearest_lookup.
  set (pos := map3 (fun x => astype_int16 (np_round x)) (mesh ci cj rmin rmax segments)).
  assert (Hpos : shape3 pos = (2%nat, S, N)) by reflexivity.
  change (dim1 pos) with S. change (dim2 pos) with N.
  destruct (reshape_3_2_spec pos S N Hpos) as (pos2 & -> & Hs2 & Hat2).
  cbn [rbind].
  assert (Hlen : len (row pos2 0) = (S * N)%nat)
    by (unfold row, cols; rewrite Hs2; reflexivity).
  assert (Hidx : forall p, (p < S * N)%nat ->
            index_ok (rows DP) (at1 (row pos2 0) p)
            && index_ok (cols DP) (at1 (row pos2 1) p)
            = sample_ok DP ci cj rmin segments true (p / N) (p mod N)).
  { intros p Hp. unfold row. cbn [at1]. rewrite !Hat2 by lia. reflexivity. }
  destruct (take2_cases DP (row pos2 0) (row pos2 1)) as [[-> Hall] | [-> Hex]];
    cbn [rbind].
  - left.
    match goal with |- context [reshape_1_2 ?a S N] =>
      destruct (reshape_1_2_spec a S N) as (pt & -> & Hspt & Hatpt);
        [exact Hlen|] end.
    cbn [rbind]. eexists. split; [reflexivity|].
    split; [unfold transpose, rows, cols; rewrite Hspt; reflexivity|].
    split.
    + intros k ri Hk Hri. cbn [transpose at2]. rewrite Hatpt. cbn [at1].
      unfold row. cbn [at1].
      rewrite !Hat2 by (try lia; apply flat_lt; assumption).
      rewrite flat_div, flat_mod by assumption. reflexivity.
    + intros k ri Hk Hri.
      specialize (Hall (k * N + ri)%nat). rewrite Hlen in Hall.
      specialize (Hall (flat_lt _ _ _ _ Hk Hri)).
      rewrite Hidx in Hall by (apply flat_lt; assumption).
      rewrite flat_div, flat_mod in Hall by assumption. exact Hall.
  - right. split; [reflexivity|].
    destruct Hex as (p & Hp & Hbad). rewrite Hlen in Hp.
    rewrite Hidx in Hbad by assumption.
    destruct (unflat_lt _ _ _ Hp). eauto.
Qed.

Lemma lower_i_at (disc0 : array1 F) (p : nat) :
  at1 (lower_i disc0) p = far_of (at1 disc0 p).
Proof.
  unfold lower_i, upper_i, far_of, floor_of. cbn [np_where zip1 map1 at1].
  destruct (Z.eqb_spec (astype_int16 (np_ceil (at1 disc0 p)))
                       (astype_int16 (np_floor (at1 disc0 p)))) as [->|]; reflexivity.
Qed.

Lemma right_j_at (disc1 : array1 F) (p : nat) :
  at1 (right_j disc1) p = far_of (at1 disc1 p).
Proof. reflexivity. Qed.

Lemma bilinear_lookup_cases :
  (exists pt,
     bilinear_lookup DP (mesh ci cj rmin rmax segments) = Ok pt
     /\ shape pt = (N, S)
     /\ (forall k ri, (k < S)%nat -> (ri < N)%nat ->
           at2 pt ri k = bilinear_value DP (x_at k ri) (y_at k ri))
     /\ (forall k ri, (k < S)%nat -> (ri < N)%nat ->
           sample_ok DP ci cj rmin segments false k ri = true))
  \/ (bilinear_lookup DP (mesh ci cj rmin rmax segments) = Raise IndexError
      /\ exists k ri, (k < S)%nat /\ (ri < N)%nat
            /\ sample_ok DP ci cj rmin segments false k ri = false).
Proof.
  unfold bilinear_lookup.
  set (d0 := sub3 (mesh ci cj rmin rmax segments) 0).
  set (d1 := sub3 (mesh ci cj rmin rmax segments) 1).
  cbv zeta.
  destruct (reshape_2_1_spec d0) as (disc0 & -> & Hl0 & Hx).
  cbn [rbind].
  change (rows d0 * cols d0)%nat with (rows d1 * cols d1)%nat.
  destruct (reshape_2_1_spec d1) as (disc1 & -> & Hl1 & Hy).
  cbn [rbind].
  change (rows d0) with S in *. change (cols d0) with N in *.
  change (rows d1) with S in *. change (cols d1) with N in *.
  assert (Hx' : forall p, at1 disc0 p = x_at (p / N) (p mod N))
    by (intros p; rewrite Hx; reflexivity).
  assert (Hy' : forall p, at1 disc1 p = y_at (p / N) (p mod N))
    by (intros p; rewrite Hy; reflexivity).
  clear Hx Hy.
  assert (Hok : forall p,
            sample_ok DP ci cj rmin segments false (p / N) (p mod N)
            = index_ok (rows DP) (at1 (upper_i disc0) p)
              && index_ok (rows DP) (at1 (lower_i disc0) p)
              && index_ok (cols DP) (at1 (left_j disc1) p)
              && index_ok (cols DP) (at1 (right_j disc1) p)).
  { intros p. rewrite lower_i_at, right_j_at. unfold upper_i, left_j.
    cbn [map1 at1]. rewrite Hx', Hy'. reflexivity. }
  assert (Hbad : forall p, (p < S * N)%nat ->
            sample_ok DP ci cj rmin segments false (p / N) (p mod N) = false ->
            exists k ri, (k < S)%nat /\ (ri < N)%nat
              /\ sample_ok DP ci cj rmin segments false k ri = false).
  { intros p Hp Hb. destruct (unflat_lt _ _ _ Hp). eauto. }
  assert (Hlu : len (upper_i disc0) = (S * N)%nat) by exact Hl0.
  assert (Hll : len (lower_i disc0) = (S * N)%nat) by exact Hl0.
  destruct (take2_cases DP (upper_i disc0) (left_j disc1)) as [[-> H1] | [-> Hex]];
    cbn [rbind];
    [| right; split; [reflexivity|]; destruct Hex as (p & Hp & Hb);
       rewrite Hlu in Hp; apply (Hbad p Hp); rewrite Hok;
       destruct (index_ok (rows DP) (at1 (upper_i disc0) p)),
         (index_ok (cols DP) (at1 (left_j disc1) p)); cbn in Hb |- *;
       try discriminate; rewrite ?andb_false_r; reflexivity].
  destruct (take2_cases DP (upper_i disc0) (right_j disc1)) as [[-> H2] | [-> Hex]];
    cbn [rbind];
    [| right; split; [reflexivity|]; destruct Hex as (p & Hp & Hb);
       rewrite Hlu in Hp; apply (Hbad p Hp); rewrite Hok;
       destruct (index_ok (rows DP) (at1 (upper_i disc0) p)),
         (index_ok (cols DP) (at1 (right_j disc1) p)); cbn in Hb |- *;
       try discriminate; rewrite ?andb_false_r; reflexivity].
  destruct (take2_cases DP (lower_i disc0) (left_j disc1)) as [[-> H3] | [-> Hex]];
    cbn [rbind];
    [| right; split; [reflexivity|]; destruct Hex as (p & Hp & Hb);
       rewrite Hll in Hp; apply (Hbad p Hp); rewrite Hok;
       destruct (index_ok (rows DP) (at1 (lower_i disc0) p)),
         (index_ok (cols DP) (at1 (left_j disc1) p)); cbn in Hb |- *;
       try discriminate; rewrite ?andb_false_r; reflexivity].
  destruct (take2_cases DP (lower_i disc0) (right_j disc1)) as [[-> H4] | [-> Hex]];
    cbn [rbind];
    [| right; split; [reflexivity|]; destruct Hex as (p & Hp & Hb);
       rewrite Hll in Hp; apply (Hbad p Hp); rewrite Hok;
       destruct (index_ok (rows DP) (at1 (lower_i disc0) p)),
         (index_ok (cols DP) (at1 (right_j disc1) p)); cbn in Hb |- *;
       try discriminate; rewrite ?andb_false_r; reflexivity].
  left.
  match goal with |- context [reshape_1_2 ?a S N] =>
    destruct (reshape_1_2_spec a S N) as (pt & -> & Hspt & Hatpt);
      [exact Hl0|] end.
  cbn [rbind]. eexists. split; [reflexivity|].
  split; [unfold transpose, rows, cols; rewrite Hspt; reflexivity|].
  split.
  - intros k ri Hk Hri. cbn [transpose at2]. rewrite Hatpt.
    cbn [zip1 at1]. rewrite !lower_i_at, !right_j_at.
    unfold upper_i, left_j, weight_ul, weight_ur, weight_ll, weight_lr.
    cbn [zip1 map1 at1]. rewrite !lower_i_at, !right_j_at.
    rewrite !Hx', !Hy'. rewrite flat_div, flat_mod by assumption.
    reflexivity.
  - intros k ri Hk Hri.
    pose proof (flat_lt _ _ _ _ Hk Hri) as Hp.
    specialize (H1 _ (eq_ind_r (fun n => (_ < n)%nat) Hp Hlu)).
    specialize (H4 _ (eq_ind_r (fun n => (_ < n)%nat) Hp Hll)).
    rewrite <- (flat_div N k ri Hri) at 1. rewrite <- (flat_mod N k ri Hri) at 2.
    rewrite Hok.
    apply andb_true_iff in H1 as [-> ->]. apply andb_true_iff in H4 as [-> ->].
    reflexivity.
Qed.

Lemma lookup_cases (simple : bool) :
  (exists pt,
     (if simple then nearest_lookup DP (mesh ci cj rmin rmax segments)
      else bilinear_lookup DP (mesh ci cj rmin rmax segments)) = Ok pt
     /\ shape pt = (N, S)
     /\ (forall k ri, (k < S)%nat -> (ri < N)%nat ->
           at2 pt ri k = lookup_value DP simple (x_at k ri) (y_at k ri))
     /\ all_samples_ok DP ci cj rmin rmax segments simple)
  \/ ((if simple then nearest_lookup DP (mesh ci cj rmin rmax segments)
       else bilinear_lookup DP (mesh ci cj rmin rmax segments)) = Raise IndexError
      /\ exists k ri, (k < S)%nat /\ (ri < N)%nat
            /\ sample_ok DP ci cj rmin segments simple k ri = false).
Proof.
  destruct simple; [apply nearest_lookup_cases | apply bilinear_lookup_cases].
Qed.

(** The call raises [IndexError] exactly when some sample has an index
    that does not address a pixel. *)
Lemma polarttransform_IndexError_iff (simple : bool) :
  segments <> 0 ->
  polarttransform DP ci cj rmin rmax segments simple = Raise IndexError
  <-> exists k ri, (k < S)%nat /\ (ri < N)%nat
        /\ sample_ok DP ci cj rmin segments simple k ri = false.
Proof.
  intros Hs. unfold polarttransform. rewrite (discfloat_eq ci cj rmin rmax segments Hs).
  cbn [rbind].
  destruct (lookup_cases simple) as [(pt & -> & _ & _ & Hall) | [-> Hex]]; cbn [rbind].
  - split.
    + intros H. exfalso.
      destruct (Z.ltb_spec segments 0) as [Hneg | Hpos].
      * rewrite (radial_weighting_negative rmin rmax segments Hneg) in H. discriminate.
      * destruct (radial_weighting_spec rmin rmax segments Hpos) as (rw & Hrw & _).
        rewrite Hrw in H. cbn [rbind] in H.
        destruct (broadcast2 fmul pt rw) eqn:Hb; [discriminate|].
        cbn [rbind] in H. rewrite H in Hb. exact (broadcast2_not_IndexError _ _ _ Hb).
    + intros (k & ri & Hk & Hri & Hbad). rewrite (Hall k ri Hk Hri) in Hbad. discriminate.
  - split; [intros _; exact Hex | reflexivity].
Qed.

(** When the azimuth grid has [segments] entries and every sample
    addresses pixels, the call returns: the result has one row per radius
    and one column per azimuth, and each entry is the looked-up value
    times the area weight of its radius. *)
Lemma polarttransform_ok (simple : bool) :
  1 <= segments ->
  S = Z.to_nat segments ->
  all_samples_ok DP ci cj rmin rmax segments simple ->
  exists out,
    polarttransform DP ci cj rmin rmax segments simple = Ok out
    /\ shape out = (N, Z.to_nat segments)
    /\ forall ri k, (ri < N)%nat -> (k < Z.to_nat segments)%nat ->
         at2 out ri k
         = fmul (lookup_value DP simple (x_at k ri) (y_at k ri))
                (area_weight rmin segments ri).
Proof.
  intros Hs HS Hall. unfold polarttransform.
  rewrite (discfloat_eq ci cj rmin rmax segments) by lia. cbn [rbind].
  destruct (lookup_cases simple) as [(pt & -> & Hspt & Hat & _) | [_ Hex]].
  - cbn [rbind].
    destruct (radial_weighting_spec rmin rmax segments) as (rw & -> & Hsrw & Hrw);
      [lia|].
    cbn [rbind].
    destruct (broadcast2_same_shape fmul pt rw) as (out & -> & Hso & Hout).
    { rewrite Hspt, Hsrw, HS. reflexivity. }
    cbn [rbind]. exists out. split; [reflexivity|].
    split; [rewrite Hso, Hspt, HS; reflexivity|].
    intros ri k Hri Hk. rewrite Hout.
    + rewrite Hat, Hrw by (rewrite ?HS; assumption). reflexivity.
    + unfold rows. rewrite Hspt. exact Hri.
    + unfold cols. rewrite Hspt, HS. exact Hk.
  - destruct Hex as (k & ri & Hk & Hri & Hbad).
    rewrite (Hall k ri Hk Hri) in Hbad. discriminate.
Qed.


End Generic.
End PolarFacts.

(* ================================================================== *)
(** * Properties of process/polar.py in exact arithmetic *)
(* ================================================================== *)

Module ExactFacts.

Import Numpy Polar PolarFacts.

(** ** Rounding of real numbers *)

Lemma Zfloor_bounds (x : R) : (IZR (Zfloor x) <= x < IZR (Zfloor x) + 1)%R.
Proof.
  unfold Zfloor. rewrite minus_IZR. destruct (archimed x). lra.
Qed.

Lemma Zfloor_unique (x : R) (z : Z) :
  (IZR z <= x < IZR z + 1)%R -> Zfloor x = z.
Proof.
  intros [Hl Hu]. unfold Zfloor.
  assert (H : z + 1 = up x).
  { apply tech_up; rewrite plus_IZR; lra. }
  lia.
Qed.

Lemma Zfloor_IZR (z : Z) : Zfloor (IZR z) = z.
Proof. apply Zfloor_unique. lra. Qed.

Lemma Zceil_IZR (z : Z) : Zceil (IZR z) = z.
Proof. unfold Zceil. rewrite <- opp_IZR, Zfloor_IZR. lia. Qed.

Lemma Ztrunc_IZR (z : Z) : Ztrunc (IZR z) = z.
Proof.
  unfold Ztrunc. destruct (Rle_dec 0 (IZR z)); [apply Zfloor_IZR | apply Zceil_IZR].
Qed.

Lemma Zrint_IZR (z : Z) : Zrint (IZR z) = z.
Proof.
  unfold Zrint. rewrite Zfloor_IZR.
  destruct (Rlt_dec (IZR z - IZR z) (/ 2)) as [_ | Hn]; [reflexivity|].
  exfalso. apply Hn. lra.
Qed.

Lemma wrap16_small (z : Z) : -32768 <= z <= 32767 -> wrap16 z = z.
Proof. intros H. unfold wrap16. rewrite Z.mod_small; lia. Qed.

(** ** The pixel indices of a sample, in exact arithmetic *)

Lemma exact_nearest_of_IZR (z : Z) :
  -32768 <= z <= 32767 -> nearest_of (IZR z) = z.
Proof.
  intros H. unfold nearest_of, astype_int16. cbn [np_round to_int Exact].
  rewrite Zrint_IZR, Ztrunc_IZR. apply wrap16_small, H.
Qed.

(** ** The azimuth grid, in exact arithmetic *)

Lemma exact_azimuths_len (segments : Z) :
  1 <= segments -> len (azimuths (F := R) segments) = Z.to_nat segments.
Proof.
  intros H. unfold azimuths, arange. cbn [len].
  cbn [of_int fadd fsub fmul fdiv np_pi np_ceil to_int Exact].
  replace ((2 * PI - 0) / (2 * PI / IZR segments))%R with (IZR segments).
  - rewrite Zceil_IZR, Ztrunc_IZR. reflexivity.
  - assert (IZR segments <> 0)%R by (apply not_0_IZR; lia).
    pose proof PI_neq0. field. auto.
Qed.

Lemma exact_azimuths_at (segments : Z) (k : nat) :
  at1 (azimuths (F := R) segments) k = (INR k * (2 * PI / IZR segments))%R.
Proof.
  unfold azimuths, arange. cbn [at1].
  cbn [of_int fadd fsub fmul fdiv np_pi Exact].
  destruct k as [|[|k]].
  - cbn. ring.
  - cbn. ring.
  - rewrite <- INR_IZR_INZ. ring.
Qed.

Lemma exact_sample_row (ci : R) (rmin segments : Z) (k ri : nat) :
  sample_row ci rmin segments k ri
  = (ci - IZR (rmin + Z.of_nat ri) * sin (INR k * (2 * PI / IZR segments)))%R.
Proof.
  unfold sample_row. rewrite exact_azimuths_at.
  cbn [of_int fadd fmul np_sin Exact]. rewrite opp_IZR. ring.
Qed.

Lemma exact_sample_col (cj : R) (rmin segments : Z) (k ri : nat) :
  sample_col cj rmin segments k ri
  = (cj + IZR (rmin + Z.of_nat ri) * cos (INR k * (2 * PI / IZR segments)))%R.
Proof.
  unfold sample_col. rewrite exact_azimuths_at.
  cbn [of_int fadd fmul np_cos Exact]. ring.
Qed.

Lemma exact_area_weight (rmin segments : Z) (ri : nat) :
  area_weight (F := R) rmin segments ri
  = (IZR (rmin + Z.of_nat ri) * 2 * PI / IZR segments)%R.
Proof.
  unfold area_weight. cbn [of_int fmul fdiv np_pi Exact]. rewrite mult_IZR. reflexivity.
Qed.

(** At azimuth 0 the sample of radius [r] is at row [ci], column [cj + r]. *)
Lemma exact_sample_row_0 (c rmin segments : Z) (ri : nat) :
  sample_row (IZR c) rmin segments 0 ri = IZR c.
Proof.
  rewrite exact_sample_row. cbn [INR]. rewrite Rmult_0_l, sin_0. lra.
Qed.

Lemma exact_sample_col_0 (c rmin segments : Z) (ri : nat) :
  sample_col (IZR c) rmin segments 0 ri = IZR (c + (rmin + Z.of_nat ri)).
Proof.
  rewrite exact_sample_col. cbn [INR]. rewrite Rmult_0_l, cos_0, !plus_IZR. lra.
Qed.

End ExactFacts.

(* ================================================================== *)
(** * The claims about process/polar.py *)
(* ================================================================== *)

Module PolarClaims.

Import Numpy Polar PolarNotions PolarFacts ExactFacts.

(** ** Shapes *)

(** In exact arithmetic the mesh has one row per azimuth and one column
    per radius. *)
Lemma exact_discfloat_shape (ci cj : R) (rmin rmax segments : Z) :
  1 <= segments ->
  exists disc, discfloat ci cj rmin rmax segments = Ok disc
               /\ shape3 disc = (2%nat, Z.to_nat segments, Z.to_nat (rmax - rmin)).
Proof.
  intros H. rewrite discfloat_eq by lia. eexists. split; [reflexivity|].
  unfold mesh. cbn [shape3]. rewrite exact_azimuths_len by exact H. reflexivity.
Qed.

(** C2, at the input [discfloat(0, 0, 0, 2, 1)] (two radii, one
    azimuth).  In exact arithmetic and in binary64 alike the array
    returned has shape (2, 1, 2): the azimuth index is the middle axis and
    the radius index the last one, where the documentation of the function
    (and the claim) put the radius in the middle, shape (2, 2, 1). *)
Theorem discfloat_shape_azimuth_then_radius :
  (exists disc : array3 R,
      discfloat 0%R 0%R 0 2 1 = Ok disc /\ shape3 disc = (2, 1, 2)%nat)
  /\ (forall (libm_sin libm_cos : float -> float) (ci cj : float),
        exists disc : array3 float,
          discfloat (F64 := Binary64 libm_sin libm_cos) ci cj 0 2 1 = Ok disc
          /\ shape3 disc = (2, 1, 2)%nat).
Proof.
  split.
  - destruct (exact_discfloat_shape 0%R 0%R 0 2 1) as (disc & H & Hs); [lia|].
    exists disc. split; [exact H | exact Hs].
  - intros sn cs ci cj. rewrite discfloat_eq by lia.
    eexists. split; [reflexivity|]. vm_compute. reflexivity.
Qed.

(** ** Binary64 *)

(** Rounding to an integral float: ties go to the even integer, and a
    zero keeps the sign of its argument. *)
Example b64_round_examples :
  b64_round ToNearestEven 2.5%float = 2%float
  /\ b64_round ToNearestEven 3.5%float = 4%float
  /\ b64_round ToNearestEven (-0.5)%float = (-0)%float
  /\ b64_round ToFloor (-0.5)%float = (-1)%float
  /\ b64_round ToCeil 1.25%float = 2%float
  /\ b64_round ToCeil 61%float = 61%float
  /\ b64_to_int (-3.75)%float = -3
  /\ b64_of_int 61 = 61%float.
Proof. repeat split; vm_compute; reflexivity. Qed.

(** For 1, 4, 60 and 360 segments the azimuth grid computed in binary64
    has as many entries as segments. *)
Example binary64_azimuths_regular (libm_sin libm_cos : float -> float) :
  len (azimuths (F64 := Binary64 libm_sin libm_cos) 1) = 1%nat
  /\ len (azimuths (F64 := Binary64 libm_sin libm_cos) 4) = 4%nat
  /\ len (azimuths (F64 := Binary64 libm_sin libm_cos) 60) = 60%nat
  /\ len (azimuths (F64 := Binary64 libm_sin libm_cos) 360) = 360%nat.
Proof. repeat split; vm_compute; reflexivity. Qed.

(** For 61 segments the azimuth grid computed in binary64 has 62 entries:
    the quotient [2 pi / (2 pi / 61)] rounds to a float above 61. *)
Lemma binary64_azimuths_61 (libm_sin libm_cos : float -> float) :
  len (azimuths (F64 := Binary64 libm_sin libm_cos) 61) = 62%nat.
Proof. vm_compute. reflexivity. Qed.

Lemma binary64_quotient_61 :
  PrimFloat.div (PrimFloat.sub (PrimFloat.mul (b64_of_int 2) b64_pi) (b64_of_int 0))
                (PrimFloat.div (PrimFloat.mul (b64_of_int 2) b64_pi) (b64_of_int 61))
  = 0x1.e800000000001p+5%float.
Proof. vm_compute. reflexivity. Qed.

(** When the azimuth grid and [segments] disagree (and neither is 1), the
    product of line 134 cannot be formed: the call returns no array. *)
Lemma polarttransform_grid_mismatch {F : Type} {F64 : Float64 F}
    (DP : array2 F) (ci cj : F) (rmin rmax segments : Z) (simple : bool) :
  len (azimuths segments) <> Z.to_nat segments ->
  len (azimuths segments) <> 1%nat ->
  Z.to_nat segments <> 1%nat ->
  polarttransform DP ci cj rmin rmax segments simple = Raise IndexError
  \/ polarttransform DP ci cj rmin rmax segments simple = Raise ValueError
  \/ polarttransform DP ci cj rmin rmax segments simple = Raise ZeroDivisionError.
Proof.
  intros Hne HS1 Hs1. unfold polarttransform.
  destruct (Z.eq_dec segments 0) as [-> | Hs]; [right; right; reflexivity|].
  rewrite (discfloat_eq ci cj rmin rmax segments Hs). cbn [rbind].
  destruct (lookup_cases DP ci cj rmin rmax segments simple)
    as [(pt & -> & Hspt & _ & _) | [-> _]]; cbn [rbind]; [|left; reflexivity].
  right; left.
  destruct (Z.ltb_spec segments 0) as [Hneg | Hpos].
  { rewrite (radial_weighting_negative rmin rmax segments Hneg). reflexivity. }
  destruct (radial_weighting_spec rmin rmax segments Hpos) as (rw & -> & Hsrw & _).
  cbn [rbind]. unfold broadcast2, rows, cols. rewrite Hspt, Hsrw. cbn [fst snd].
  unfold broadcast_axis at 1. rewrite Nat.eqb_refl. cbn [rbind].
  destruct (broadcast_axis_cases (len (azimuths segments)) (Z.to_nat segments))
    as [[_ H]|[[_ [_ H]]|[[_ [_ [_ H]]]|[-> _]]]]; try contradiction.
  reflexivity.
Qed.

(** C5, at [segments = 61].  In binary64 the azimuth grid of line 46 has
    62 entries and not 61: the last one, of index 61, is [2 pi] itself,
    the end of the half-open interval.  The mesh of [discfloat(ci, cj, 5,
    7, 61)] therefore has 62 azimuth rows, and [polarttransform] with 61
    segments returns no array for any image. *)
Theorem discfloat_binary64_azimuth_count :
  forall (libm_sin libm_cos : float -> float) (ci cj : float),
    len (azimuths (F64 := Binary64 libm_sin libm_cos) 61) = 62%nat
    /\ at1 (azimuths (F64 := Binary64 libm_sin libm_cos) 61) 61
       = PrimFloat.mul (b64_of_int 2) b64_pi
    /\ (exists disc : array3 float,
          discfloat (F64 := Binary64 libm_sin libm_cos) ci cj 5 7 61 = Ok disc
          /\ shape3 disc = (2, 62, 2)%nat)
    /\ (forall (DP : array2 float) (simple : bool) (out : array2 float),
          polarttransform (F64 := Binary64 libm_sin libm_cos) DP ci cj 5 7 61 simple
          <> Ok out).
Proof.
  intros sn cs ci cj.
  split; [apply binary64_azimuths_61|].
  split; [vm_compute; reflexivity|].
  split.
  - rewrite discfloat_eq by lia. eexists. split; [reflexivity|].
    vm_compute. reflexivity.
  - intros DP simple out.
    destruct (polarttransform_grid_mismatch (F64 := Binary64 sn cs)
                DP ci cj 5 7 61 simple) as [H | [H | H]];
      try (rewrite H; discriminate);
      rewrite ?binary64_azimuths_61; vm_compute; lia.
Qed.

(** In exact arithmetic the mesh is the one of the documentation: the
    grid has [segments] azimuths [k * 2 pi / segments] and [rmax - rmin]
    radii [rmin + ri], and the sample of azimuth [phi] and radius [r] is at
    row [ci - r sin phi], column [cj + r cos phi]. *)
Lemma exact_discfloat_mesh (ci cj : R) (rmin rmax segments : Z) :
  1 <= segments ->
  exists disc,
    discfloat ci cj rmin rmax segments = Ok disc
    /\ shape3 disc = (2%nat, Z.to_nat segments, Z.to_nat (rmax - rmin))
    /\ forall k ri, (k < Z.to_nat segments)%nat -> (ri < Z.to_nat (rmax - rmin))%nat ->
         let phi := (INR k * (2 * PI / IZR segments))%R in
         let r := IZR (rmin + Z.of_nat ri) in
         at3 disc 0 k ri = (ci - r * sin phi)%R
         /\ at3 disc 1 k ri = (cj + r * cos phi)%R.
Proof.
  intros H. rewrite discfloat_eq by lia. eexists. split; [reflexivity|].
  split.
  - unfold mesh. cbn [shape3]. rewrite exact_azimuths_len by exact H. reflexivity.
  - intros k ri _ _. cbv zeta. unfold mesh. cbn [at3].
    split; [apply exact_sample_row | apply exact_sample_col].
Qed.

(** ** Samples at azimuth 0, in exact arithmetic *)

Lemma exact_samples_one_segment (DP : array2 R) (ci cj : R) (rmin rmax : Z)
    (simple : bool) :
  (forall ri, (ri < Z.to_nat (rmax - rmin))%nat ->
              sample_ok DP ci cj rmin 1 simple 0 ri = true) ->
  all_samples_ok DP ci cj rmin rmax 1 simple.
Proof.
  intros H k ri Hk Hri. rewrite exact_azimuths_len in Hk by lia.
  replace k with 0%nat by lia. apply H, Hri.
Qed.

Lemma exact_sample_ok_nearest_0 (DP : array2 R) (c d rmin segments : Z) (ri : nat) :
  -32768 <= c <= 32767 ->
  -32768 <= d + (rmin + Z.of_nat ri) <= 32767 ->
  sample_ok DP (IZR c) (IZR d) rmin segments true 0 ri
  = index_ok (rows DP) c && index_ok (cols DP) (d + (rmin + Z.of_nat ri)).
Proof.
  intros Hc Hd. unfold sample_ok.
  rewrite exact_sample_row_0, exact_sample_col_0.
  rewrite !exact_nearest_of_IZR by assumption. reflexivity.
Qed.

Lemma exact_nearest_value_IZR (DP : array2 R) (a b : Z) :
  -32768 <= a <= 32767 -> -32768 <= b <= 32767 ->
  nearest_value DP (IZR a) (IZR b) = pixel DP a b.
Proof.
  intros Ha Hb. unfold nearest_value.
  rewrite !exact_nearest_of_IZR by assumption. reflexivity.
Qed.

Lemma image_1x3_samples_ok :
  all_samples_ok image_1x3 0%R 0%R 0 2 1 true.
Proof.
  apply exact_samples_one_segment. intros ri Hri.
  rewrite exact_sample_ok_nearest_0 by lia.
  assert (Hcases : ri = 0%nat \/ ri = 1%nat) by lia.
  destruct Hcases as [-> | ->]; reflexivity.
Qed.

(** C1, as stated, fails: for an image of one row, two radii and one
    segment, the nearest-pixel transform returns an array of shape (2, 1),
    radius first, and not (1, 2). *)
Lemma polarttransform_shape_radius_first :
  exists out : array2 R,
    polarttransform image_1x3 0%R 0%R 0 2 1 true = Ok out
    /\ shape out = (2, 1)%nat
    /\ shape out <> (1, 2)%nat.
Proof.
  destruct (polarttransform_ok image_1x3 0%R 0%R 0 2 1 true)
    as (out & H & Hs & _);
    [lia | apply exact_azimuths_len; lia | apply image_1x3_samples_ok |].
  exists out. split; [exact H|]. split; [exact Hs|].
  rewrite Hs. discriminate.
Qed.

(** C1, as the code has it.  For [rmin < rmax], [segments >= 1], an
    azimuth grid of [segments] entries and samples whose indices all
    address pixels of [DP], [polarttransform] returns, in both modes, an
    array of shape (rmax - rmin, segments): the radius is the leading axis
    and the azimuth the trailing one. *)
Theorem polarttransform_shape :
  forall (F : Type) (F64 : Float64 F) (DP : array2 F) (ci cj : F)
         (rmin rmax segments : Z) (simple : bool),
    rmin < rmax ->
    1 <= segments ->
    len (azimuths segments) = Z.to_nat segments ->
    all_samples_ok DP ci cj rmin rmax segments simple ->
    exists out : array2 F,
      polarttransform DP ci cj rmin rmax segments simple = Ok out
      /\ shape out = (Z.to_nat (rmax - rmin), Z.to_nat segments)
      /\ (0 < rows out)%nat /\ (0 < cols out)%nat.
Proof.
  intros F F64 DP ci cj rmin rmax segments simple Hr Hs HS Hall.
  destruct (polarttransform_ok DP ci cj rmin rmax segments simple Hs HS Hall)
    as (out & H & Hshape & _).
  exists out. split; [exact H|]. split; [exact Hshape|].
  unfold rows, cols. rewrite Hshape. cbn [fst snd]. lia.
Qed.

Lemma polarttransform_shape_witness :
  exists out : array2 R,
    polarttransform image_1x3 0%R 0%R 0 2 1 true = Ok out
    /\ shape out = (Z.to_nat (2 - 0), Z.to_nat 1)
    /\ (0 < rows out)%nat /\ (0 < cols out)%nat.
Proof.
  apply (polarttransform_shape R Exact image_1x3 0%R 0%R 0 2 1 true).
  - lia.
  - lia.
  - apply exact_azimuths_len. lia.
  - apply image_1x3_samples_ok.
Defined.

(** ** Indices outside the image *)

Lemma index_ok_spec (n : nat) (i : Z) :
  index_ok n i = true <-> - Z.of_nat n <= i < Z.of_nat n.
Proof.
  unfold index_ok. rewrite andb_true_iff, Z.leb_le, Z.ltb_lt. tauto.
Qed.

Lemma norm_index_negative (n : nat) (i : Z) :
  - Z.of_nat n <= i < 0 -> norm_index n i = Z.to_nat (i + Z.of_nat n).
Proof.
  intros H. unfold norm_index. destruct (Z.ltb_spec i 0); [reflexivity | lia].
Qed.

Lemma norm_index_nonnegative (n : nat) (i : Z) :
  0 <= i -> norm_index n i = Z.to_nat i.
Proof.
  intros H. unfold norm_index. destruct (Z.ltb_spec i 0); [lia | reflexivity].
Qed.

(** C7, as stated, fails: with centre column -2 and radius 1 the sampled
    column index is -1, which is no column of a three-column image; the
    call raises nothing and returns the value of the last column (30)
    times the area weight. *)
Lemma polarttransform_negative_index_wraps :
  nearest_of (sample_col (IZR (-2)) 1 1 0 0) = -1
  /\ exists out : array2 R,
       polarttransform image_1x3 0%R (IZR (-2)) 1 2 1 true = Ok out
       /\ at2 out 0 0 = (30 * (2 * PI))%R.
Proof.
  split.
  - rewrite exact_sample_col_0. apply exact_nearest_of_IZR. lia.
  - destruct (polarttransform_ok image_1x3 0%R (IZR (-2)) 1 2 1 true)
      as (out & H & _ & Hat).
    + lia.
    + apply exact_azimuths_len. lia.
    + apply exact_samples_one_segment. intros ri Hri.
      rewrite exact_sample_ok_nearest_0 by lia.
      replace ri with 0%nat by lia. reflexivity.
    + exists out. split; [exact H|].
      rewrite (Hat 0%nat 0%nat) by (cbn; lia).
      unfold lookup_value. rewrite exact_sample_row_0, exact_sample_col_0.
      rewrite exact_nearest_value_IZR by (cbn; lia).
      rewrite exact_area_weight.
      change (pixel image_1x3 0 (-2 + (1 + Z.of_nat 0))) with 30%R.
      cbn [fmul Exact Z.of_nat]. change (IZR (1 + 0)) with 1%R. change (IZR 1) with 1%R.
      lra.
Qed.

(** C7, as the code has it.  For [segments <> 0] the call raises
    [IndexError] exactly when, for some sample, one of the indices that
    the lookup computes lies outside [-n, n), [n] being the length of the
    axis it addresses; an index in [-n, 0) raises nothing: it addresses
    the pixel [n + index], counted from the end of the axis. *)
Theorem polarttransform_index_error :
  forall (F : Type) (F64 : Float64 F) (DP : array2 F) (ci cj : F)
         (rmin rmax segments : Z) (simple : bool),
    segments <> 0 ->
    (polarttransform DP ci cj rmin rmax segments simple = Raise IndexError
     <-> exists k ri : nat,
           (k < len (azimuths segments))%nat
           /\ (ri < Z.to_nat (rmax - rmin))%nat
           /\ sample_ok DP ci cj rmin segments simple k ri = false)
    /\ (forall (n : nat) (i : Z),
          index_ok n i = true <-> - Z.of_nat n <= i < Z.of_nat n)
    /\ (forall (n : nat) (i : Z),
          - Z.of_nat n <= i < 0 -> norm_index n i = Z.to_nat (i + Z.of_nat n)).
Proof.
  intros F F64 DP ci cj rmin rmax segments simple Hs.
  split; [apply polarttransform_IndexError_iff, Hs|].
  split; [apply index_ok_spec | apply norm_index_negative].
Qed.

(** With centre column 3 and radius 1 the sampled column index is 4, past
    the end of a three-column image: the call raises [IndexError]. *)
Lemma polarttransform_index_error_witness :
  polarttransform image_1x3 0%R (IZR 3) 1 2 1 true = Raise IndexError.
Proof.
  apply (proj2 (proj1 (polarttransform_index_error R Exact image_1x3 0%R (IZR 3)
                         1 2 1 true ltac:(lia)))).
  exists 0%nat, 0%nat.
  split; [rewrite exact_azimuths_len by lia; cbn; lia|].
  split; [cbn; lia|].
  rewrite exact_sample_ok_nearest_0 by lia. reflexivity.
Defined.

(** ** Values *)

(** A call that returns: [segments >= 1], every sample addresses pixels,
    and (when the azimuth grid has [segments] entries) each entry is the
    looked-up value times the area weight. *)
Lemma polarttransform_ok_inv {F : Type} {F64 : Float64 F}
    (DP : array2 F) (ci cj : F) (rmin rmax segments : Z) (simple : bool)
    (out : array2 F) :
  polarttransform DP ci cj rmin rmax segments simple = Ok out ->
  1 <= segments
  /\ all_samples_ok DP ci cj rmin rmax segments simple
  /\ (len (azimuths segments) = Z.to_nat segments ->
      shape out = (Z.to_nat (rmax - rmin), Z.to_nat segments)
      /\ forall ri k, (ri < Z.to_nat (rmax - rmin))%nat ->
           (k < Z.to_nat segments)%nat ->
           at2 out ri k
           = fmul (lookup_value DP simple (sample_row ci rmin segments k ri)
                                          (sample_col cj rmin segments k ri))
                  (area_weight rmin segments ri)).
Proof.
  intros H.
  assert (Hs : 1 <= segments).
  { destruct (Z.eq_dec segments 0) as [-> | Hn]; [discriminate|].
    destruct (Z.ltb_spec segments 0) as [Hneg | Hpos]; [exfalso | lia].
    unfold polarttransform in H.
    rewrite (discfloat_eq ci cj rmin rmax segments Hn) in H. cbn [rbind] in H.
    destruct (lookup_cases DP ci cj rmin rmax segments simple)
      as [(pt & Hpt & _) | [Hpt _]]; rewrite Hpt in H; cbn [rbind] in H;
      [|discriminate].
    rewrite (radial_weighting_negative rmin rmax segments Hneg) in H. discriminate. }
  assert (Hall : all_samples_ok DP ci cj rmin rmax segments simple).
  { intros k ri Hk Hri.
    destruct (sample_ok DP ci cj rmin segments simple k ri) eqn:Hok; [reflexivity|].
    assert (Hbad : polarttransform DP ci cj rmin rmax segments simple = Raise IndexError).
    { apply polarttransform_IndexError_iff; [lia|]. eauto. }
    rewrite Hbad in H. discriminate. }
  split; [exact Hs|]. split; [exact Hall|].
  intros HS.
  destruct (polarttransform_ok DP ci cj rmin rmax segments simple Hs HS Hall)
    as (out' & H' & Hshape & Hat).
  rewrite H' in H. injection H as <-. auto.
Qed.

(** ** Values *)

(** The entries of a returned array, whatever the arithmetic: the entry
    of radius index [ri] and azimuth index [k] is the value looked up for
    that sample times the area weight of its radius. *)
Lemma polarttransform_ok_entries {F : Type} {F64 : Float64 F}
    (DP : array2 F) (ci cj : F) (rmin rmax segments : Z) (simple : bool)
    (out : array2 F) :
  polarttransform DP ci cj rmin rmax segments simple = Ok out ->
  forall ri k, (ri < Z.to_nat (rmax - rmin))%nat ->
    (k < len (azimuths segments))%nat ->
    sample_ok DP ci cj rmin segments simple k ri = true
    /\ at2 out ri k
       = fmul (lookup_value DP simple (sample_row ci rmin segments k ri)
                                      (sample_col cj rmin segments k ri))
              (area_weight rmin segments ri).
Proof.
  intros H ri k Hri Hk.
  destruct (polarttransform_ok_inv DP ci cj rmin rmax segments simple out H)
    as (Hs & Hall & _).
  split; [apply Hall; assumption|].
  unfold polarttransform in H.
  rewrite (discfloat_eq ci cj rmin rmax segments) in H by lia. cbn [rbind] in H.
  destruct (lookup_cases DP ci cj rmin rmax segments simple)
    as [(pt & Hpt & Hspt & Hat & _) | [Hpt _]];
    rewrite Hpt in H; cbn [rbind] in H; [|discriminate].
  destruct (radial_weighting_spec rmin rmax segments) as (rw & Hrw & Hsrw & Hrwat);
    [lia|].
  rewrite Hrw in H. cbn [rbind] in H.
  unfold broadcast2 in H.
  destruct (broadcast_axis (rows pt) (rows rw)) as [r | e]; [|discriminate].
  cbn [rbind] in H.
  destruct (broadcast_axis (cols pt) (cols rw)) as [c | e]; [|discriminate].
  cbn [rbind] in H. injection H as <-. cbn [at2].
  rewrite Hrwat. unfold rows, cols. rewrite Hspt, Hsrw. cbn [fst snd].
  rewrite !bidx_lt by assumption.
  rewrite Hat by assumption. reflexivity.
Qed.

Lemma is_integer_nearest_of {F : Type} {F64 : Float64 F} (x : F) (a : Z) :
  is_integer x a -> -32768 <= a <= 32767 -> nearest_of x = a.
Proof.
  intros (Hr & _ & _ & Ha) Hrange. unfold nearest_of, astype_int16.
  rewrite Hr, Ha. apply wrap16_small, Hrange.
Qed.

(** The nearest-pixel transform of the float64 image (10, 20, 30) with
    centre (0, 0), radius 1 and one segment, in binary64. *)
Lemma image_1x3_f64_radius_1 :
  exists out : array2 float,
    polarttransform (F64 := Binary64_at_zero) image_1x3_f64 0%float 0%float 1 2 1 true
    = Ok out
    /\ at2 out 0 0 = 0x1.f6a7a2955385ep+6%float.
Proof.
  destruct (polarttransform_ok (F64 := Binary64_at_zero)
              image_1x3_f64 0%float 0%float 1 2 1 true)
    as (out & H & _ & Hat).
  - lia.
  - vm_compute. reflexivity.
  - intros k ri Hk Hri.
    assert (Hk0 : k = 0%nat) by (vm_compute in Hk; lia).
    assert (Hr0 : ri = 0%nat) by (vm_compute in Hri; lia).
    subst. vm_compute. reflexivity.
  - exists out. split; [exact H|].
    rewrite (Hat 0%nat 0%nat) by (vm_compute; lia).
    vm_compute. reflexivity.
Qed.

(** C8, as stated, fails, in binary64 as well: with centre (0, 0), radius
    1 and one segment the sample lands exactly on pixel (0, 1), whose
    value is 20; the entry returned for it is the float64 product
    [20 * (2 * pi)] = 125.66370614359172, not 20. *)
Lemma polarttransform_nearest_is_weighted :
  sample_row (F64 := Binary64_at_zero) 0%float 1 1 0 0 = 0%float
  /\ sample_col (F64 := Binary64_at_zero) 0%float 1 1 0 0 = 1%float
  /\ at2 image_1x3_f64 0 1 = 20%float
  /\ exists out : array2 float,
       polarttransform (F64 := Binary64_at_zero) image_1x3_f64 0%float 0%float
         1 2 1 true = Ok out
       /\ at2 out 0 0 = 0x1.f6a7a2955385ep+6%float
       /\ PrimFloat.eqb (at2 out 0 0) 20%float = false.
Proof.
  split; [vm_compute; reflexivity|].
  split; [vm_compute; reflexivity|].
  split; [vm_compute; reflexivity|].
  destruct image_1x3_f64_radius_1 as (out & H & Hv).
  exists out. split; [exact H|]. split; [exact Hv|].
  rewrite Hv. vm_compute. reflexivity.
Qed.

(** C8, as the code has it, in every arithmetic (float64 included).
    When the nearest-pixel transform returns and the two coordinates of
    the sample of azimuth index [k] and radius index [ri] are integers,
    [a] and [b], the coordinates of a pixel of [DP] (indices that int16
    can hold), the value looked up for it is exactly [DP[a, b]], and the
    entry returned for it is the product of [DP[a, b]] and the area
    weight [(rmin + ri) * 2 pi / segments]. *)
Theorem polarttransform_nearest_exact_hit :
  forall (F : Type) (F64 : Float64 F) (DP : array2 F) (ci cj : F)
         (rmin rmax segments : Z) (out : array2 F) (k ri : nat) (a b : Z),
    polarttransform DP ci cj rmin rmax segments true = Ok out ->
    (k < len (azimuths segments))%nat ->
    (ri < Z.to_nat (rmax - rmin))%nat ->
    is_integer (sample_row ci rmin segments k ri) a ->
    is_integer (sample_col cj rmin segments k ri) b ->
    0 <= a < Z.of_nat (rows DP) -> a <= 32767 ->
    0 <= b < Z.of_nat (cols DP) -> b <= 32767 ->
    lookup_value DP true (sample_row ci rmin segments k ri)
                         (sample_col cj rmin segments k ri)
    = at2 DP (Z.to_nat a) (Z.to_nat b)
    /\ at2 out ri k
       = fmul (at2 DP (Z.to_nat a) (Z.to_nat b)) (area_weight rmin segments ri).
Proof.
  intros F F64 DP ci cj rmin rmax segments out k ri a b H Hk Hri Hx Hy
    Ha Ha16 Hb Hb16.
  destruct (polarttransform_ok_entries DP ci cj rmin rmax segments true out H
              ri k Hri Hk) as [_ Hat].
  assert (Hv : lookup_value DP true (sample_row ci rmin segments k ri)
                                    (sample_col cj rmin segments k ri)
               = at2 DP (Z.to_nat a) (Z.to_nat b)).
  { unfold lookup_value, nearest_value, pixel.
    rewrite (is_integer_nearest_of _ a Hx), (is_integer_nearest_of _ b Hy) by lia.
    rewrite !norm_index_nonnegative by lia. reflexivity. }
  split; [exact Hv|].
  rewrite Hat, Hv. reflexivity.
Qed.

Lemma polarttransform_nearest_exact_hit_witness :
  exists out : array2 float,
    polarttransform (F64 := Binary64_at_zero) image_1x3_f64 0%float 0%float 1 2 1 true
    = Ok out
    /\ lookup_value (F64 := Binary64_at_zero) image_1x3_f64 true
         (sample_row (F64 := Binary64_at_zero) 0%float 1 1 0 0)
         (sample_col (F64 := Binary64_at_zero) 0%float 1 1 0 0)
       = at2 image_1x3_f64 (Z.to_nat 0) (Z.to_nat 1)
    /\ at2 out 0 0
       = fmul (Float64 := Binary64_at_zero)
           (at2 image_1x3_f64 (Z.to_nat 0) (Z.to_nat 1))
           (area_weight (F64 := Binary64_at_zero) 1 1 0).
Proof.
  destruct image_1x3_f64_radius_1 as (out & H & _).
  exists out. split; [exact H|].
  apply (polarttransform_nearest_exact_hit float Binary64_at_zero image_1x3_f64
           0%float 0%float 1 2 1 out 0 0 0 1 H).
  - vm_compute. lia.
  - vm_compute. lia.
  - repeat split; vm_compute; reflexivity.
  - repeat split; vm_compute; reflexivity.
  - vm_compute. split; [discriminate | reflexivity].
  - lia.
  - vm_compute. split; [discriminate | reflexivity].
  - lia.
Defined.

(** ** Bilinear weights *)




(** At an exact hit, in binary64: for the sample at (3, 4) the far
    neighbours are 4 and 5, the weights are 1, 0, 0 and 0, and their sum
    is 1. *)
Example binary64_weights_integer_hit :
  floor_of (F64 := Binary64_at_zero) 3%float = 3
  /\ far_of (F64 := Binary64_at_zero) 3%float = 4
  /\ far_of (F64 := Binary64_at_zero) 4%float = 5
  /\ w_ul (F64 := Binary64_at_zero) 3%float 4%float = 1%float
  /\ w_ur (F64 := Binary64_at_zero) 3%float 4%float = 0%float
  /\ w_ll (F64 := Binary64_at_zero) 3%float 4%float = 0%float
  /\ w_lr (F64 := Binary64_at_zero) 3%float 4%float = 0%float
  /\ weights_sum (F64 := Binary64_at_zero) 3%float 4%float = 1%float.
Proof. repeat split; vm_compute; reflexivity. Qed.




End PolarClaims.

(* ================================================================== *)
(** * Further properties of io/read.py *)
(* ================================================================== *)

Module ReadBehaviour.

Import Read ReadCallers ReadFacts.

(** ** The call, step by step *)

Lemma np_dtype_nonneg header dt kx ky footer :
  0 <= header -> 0 <= kx -> 0 <= ky -> 0 <= footer ->
  np_dtype header dt kx ky footer = Ok (mk_frametype header dt (kx, ky) footer).
Proof.
  intros. unfold np_dtype.
  destruct (Z.ltb_spec header 0), (Z.ltb_spec kx 0), (Z.ltb_spec ky 0),
    (Z.ltb_spec footer 0); cbn; try lia; reflexivity.
Qed.

Lemma np_dtype_cases header dt kx ky footer :
  np_dtype header dt kx ky footer = Ok (mk_frametype header dt (kx, ky) footer)
  \/ np_dtype header dt kx ky footer = Raise ValueError.
Proof.
  unfold np_dtype. destruct (_ || _); auto.
Qed.

(** The outcome of a mapping of [rows * cols] records of [rec] bytes on a
    file of [flen] bytes. *)
Lemma np_memmap_some fs path ft rows cols flen :
  fs path = Some flen ->
  np_memmap fs path ft (rows, cols)
  = ([EvMemmap path],
     if rows * cols * itemsize ft <? 0 then Raise OverflowError
     else if (rows * cols * itemsize ft =? 0) && (flen =? 0) then Raise ValueError
     else if flen <? rows * cols * itemsize ft then Raise ValueError
     else if (rows <? 0) || (cols <? 0) then Raise ValueError
     else Ok (mk_memmap path ft (rows, cols) (rows * cols * itemsize ft))).
Proof.
  intros Hfs. unfold np_memmap. rewrite Hfs. reflexivity.
Qed.

Lemma np_memmap_fits fs path ft rows cols flen :
  fs path = Some flen ->
  0 <= rows -> 0 <= cols -> 0 <= itemsize ft ->
  rows * cols * itemsize ft <= flen -> 0 < flen ->
  np_memmap fs path ft (rows, cols)
  = ([EvMemmap path],
     Ok (mk_memmap path ft (rows, cols) (rows * cols * itemsize ft))).
Proof.
  intros Hfs Hr Hc Hi Hle Hpos. rewrite (np_memmap_some _ _ _ _ _ _ Hfs).
  destruct (Z.ltb_spec (rows * cols * itemsize ft) 0); [nia|].
  destruct (Z.eqb_spec flen 0); [lia|]. rewrite andb_false_r.
  destruct (Z.ltb_spec flen (rows * cols * itemsize ft)); [lia|].
  destruct (Z.ltb_spec rows 0); [lia|].
  destruct (Z.ltb_spec cols 0); [lia|]. reflexivity.
Qed.

Lemma np_memmap_short fs path ft rows cols flen :
  fs path = Some flen ->
  0 <= rows * cols * itemsize ft -> flen < rows * cols * itemsize ft ->
  np_memmap fs path ft (rows, cols) = ([EvMemmap path], Raise ValueError).
Proof.
  intros Hfs H0 Hlt. rewrite (np_memmap_some _ _ _ _ _ _ Hfs).
  destruct (Z.ltb_spec (rows * cols * itemsize ft) 0); [lia|].
  destruct (_ && _); [reflexivity|].
  destruct (Z.ltb_spec flen (rows * cols * itemsize ft)); [reflexivity|lia].
Qed.

(** The end of the call, once a view of [xd] scan rows is mapped. *)
Lemma finish_view filepath ft xd cols nbytes flybackpix :
  bind (lift (reshape2 (mk_memmap filepath ft (xd, cols) nbytes) xd cols))
       (fun data =>
          if flybackpix >? 0
          then ret (slice_scan_cols (field_data data) (- flybackpix))
          else ret (field_data data))
  = ([], Ok (if flybackpix >? 0
             then slice_scan_cols
                    (field_data (mk_memmap filepath ft (xd, cols) nbytes))
                    (- flybackpix)
             else field_data (mk_memmap filepath ft (xd, cols) nbytes))).
Proof.
  unfold reshape2. cbn [mm_shape fst snd mm_path mm_dtype mm_nbytes].
  rewrite Z.eqb_refl. cbn [lift bind]. destruct (flybackpix >? 0); reflexivity.
Qed.

(** The shape of the result built from a view. *)
Lemma result_shape filepath header dt kx ky footer xd ydim flybackpix nbytes :
  0 <= ydim + flybackpix ->
  let a := if flybackpix >? 0
           then slice_scan_cols
                  (field_data (mk_memmap filepath
                                 (mk_frametype header dt (kx, ky) footer)
                                 (xd, ydim + flybackpix) nbytes))
                  (- flybackpix)
           else field_data (mk_memmap filepath
                              (mk_frametype header dt (kx, ky) footer)
                              (xd, ydim + flybackpix) nbytes) in
  scan_rows a = xd /\ scan_cols a = kept_cols ydim flybackpix
  /\ det_rows a = kx /\ det_cols a = ky.
Proof.
  intros Hc a. subst a. unfold kept_cols.
  destruct (Z.gtb_spec flybackpix 0) as [Hf | Hf].
  - unfold slice_scan_cols, field_data, slice_stop_len.
    cbn [scan_rows scan_cols det_rows det_cols base mm_shape mm_dtype
         data_shape fst snd].
    destruct (Z.ltb_spec (- flybackpix) 0); [|lia].
    repeat split. f_equal. lia.
  - unfold field_data.
    cbn [scan_rows scan_cols det_rows det_cols base mm_shape mm_dtype
         data_shape fst snd].
    repeat split.
Qed.

Lemma bind_lift_ok {A B : Type} (a : A) (k : A -> io B) :
  bind (lift (Ok a)) k = k a.
Proof. unfold bind, lift. destruct (k a); reflexivity. Qed.

Lemma bind_ext {A B : Type} (m : io A) (k k' : A -> io B) :
  (forall a, k a = k' a) -> bind m k = bind m k'.
Proof.
  intros H. unfold bind. destruct m as [t [a | e]]; [rewrite H|]; reflexivity.
Qed.

(** The call for a supported bit depth and a well-formed record type. *)
Lemma read_mib_unfold fs filepath xdim ydim kx ky flybackpix bit_depth header footer
    dt b :
  bit_depth_params bit_depth = Ok (dt, b) ->
  0 <= header -> 0 <= kx -> 0 <= ky -> 0 <= footer ->
  let ft := mk_frametype header dt (kx, ky) footer in
  read_mib_to_np fs filepath xdim ydim kx ky flybackpix bit_depth header footer
  = bind
      (try_except_ValueError
         (bind (np_memmap fs filepath ft (xdim, ydim + flybackpix)) (fun data =>
          ret (xdim, data)))
         (bind (os_path_getsize fs filepath) (fun file_size =>
          bind (lift (int_truediv file_size
                        ((ydim + 1) * (kx * ky * b + header + footer)))) (fun xdim =>
          bind (np_memmap fs filepath ft (xdim, ydim + flybackpix)) (fun data =>
          ret (xdim, data))))))
      (fun '(xdim, data) =>
         bind (lift (reshape2 data xdim (ydim + flybackpix))) (fun data =>
         if flybackpix >? 0
         then ret (slice_scan_cols (field_data data) (- flybackpix))
         else ret (field_data data))).
Proof.
  intros Hbd Hh Hkx Hky Hf ft. unfold read_mib_to_np.
  rewrite Hbd, bind_lift_ok.
  rewrite (np_dtype_nonneg header dt kx ky footer Hh Hkx Hky Hf).
  match goal with
  | |- bind ?X _ = bind ?Y _ => assert (HXY : X = Y); [|rewrite HXY; reflexivity]
  end.
  match goal with
  | |- try_except_ValueError ?b1 ?h1 = try_except_ValueError ?b2 ?h2 =>
      assert (Hb : b1 = b2) by (rewrite bind_lift_ok; reflexivity);
      assert (Hh' : h1 = h2); [|rewrite Hb, Hh'; reflexivity]
  end.
  apply bind_ext; intros file_size. apply bind_ext; intros xd.
  rewrite bind_lift_ok. reflexivity.
Qed.

(** ** Complete files *)

Lemma read_mib_complete fs filepath xdim ydim kx ky flybackpix bit_depth header footer
    dt b flen :
  bit_depth_params bit_depth = Ok (dt, b) ->
  0 <= header -> 0 <= kx -> 0 <= ky -> 0 <= footer ->
  0 <= xdim -> 0 <= ydim + flybackpix ->
  fs filepath = Some flen -> 0 < flen ->
  xdim * (ydim + flybackpix) * record_bytes kx ky (dtype_itemsize dt) header footer
  <= flen ->
  exists a,
    read_mib_to_np fs filepath xdim ydim kx ky flybackpix bit_depth header footer
    = ([EvMemmap filepath], Ok a)
    /\ scan_rows a = xdim /\ scan_cols a = kept_cols ydim flybackpix
    /\ det_rows a = kx /\ det_cols a = ky
    /\ mm_nbytes (base a)
       = xdim * (ydim + flybackpix)
         * record_bytes kx ky (dtype_itemsize dt) header footer.
Proof.
  intros Hbd Hh Hkx Hky Hf Hx Hc Hfs Hpos Hle.
  rewrite (read_mib_unfold _ _ _ _ _ _ _ _ _ _ dt b Hbd Hh Hkx Hky Hf). cbv zeta.
  assert (Hrec : 0 <= record_bytes kx ky (dtype_itemsize dt) header footer).
  { unfold record_bytes. destruct dt; cbn; nia. }
  rewrite <- itemsize_record_bytes in Hle, Hrec.
  rewrite (np_memmap_fits fs filepath _ xdim (ydim + flybackpix) flen Hfs Hx Hc Hrec Hle Hpos).
  cbn [bind ret app try_except_ValueError].
  rewrite finish_view. cbn [app].
  eexists. split; [reflexivity|].
  pose proof (result_shape filepath header dt kx ky footer xdim ydim flybackpix
                (xdim * (ydim + flybackpix)
                 * itemsize (mk_frametype header dt (kx, ky) footer)) Hc) as Hs.
  cbv zeta in Hs. destruct Hs as (H1 & H2 & H3 & H4).
  repeat split; try assumption.
  rewrite <- itemsize_record_bytes.
  destruct (flybackpix >? 0); reflexivity.
Qed.

(** X6.  A file that holds at least the [xdim * (ydim + flybackpix)]
    records asked for (it may hold more) is read with a single access, and
    the result has the shape (xdim, ydim, kx, ky) of the docstring; its
    view covers exactly the records asked for. *)
Theorem read_mib_complete_file
    fs filepath xdim ydim kx ky flybackpix bit_depth header footer dt b flen :
  bit_depth_params bit_depth = Ok (dt, b) ->
  0 <= header -> 0 <= kx -> 0 <= ky -> 0 <= footer ->
  0 <= xdim -> 0 <= ydim -> 0 <= flybackpix ->
  fs filepath = Some flen -> 0 < flen ->
  xdim * (ydim + flybackpix) * record_bytes kx ky (dtype_itemsize dt) header footer
  <= flen ->
  exists a,
    read_mib_to_np fs filepath xdim ydim kx ky flybackpix bit_depth header footer
    = ([EvMemmap filepath], Ok a)
    /\ scan_rows a = xdim /\ scan_cols a = ydim
    /\ det_rows a = kx /\ det_cols a = ky
    /\ mm_nbytes (base a)
       = xdim * (ydim + flybackpix)
         * record_bytes kx ky (dtype_itemsize dt) header footer.
Proof.
  intros Hbd Hh Hkx Hky Hf Hx Hy Hfl Hfs Hpos Hle.
  destruct (read_mib_complete fs filepath xdim ydim kx ky flybackpix bit_depth
              header footer dt b flen) as (a & Ha & H1 & H2 & H3 & H4 & H5);
    try assumption; try lia.
  exists a. repeat split; try assumption.
  rewrite H2. unfold kept_cols. destruct (Z.gtb_spec flybackpix 0); lia.
Qed.

(** A file of 2 x (3 + 1) records of 392 bytes followed by 100 stray
    bytes. *)
Lemma read_mib_complete_file_witness :
  exists a,
    read_mib_to_np (single_file "scan.mib" 3236) "scan.mib" 2 3 2 2 1 12 384 0
    = ([EvMemmap "scan.mib"], Ok a)
    /\ scan_rows a = 2 /\ scan_cols a = 3
    /\ det_rows a = 2 /\ det_cols a = 2
    /\ mm_nbytes (base a) = 2 * (3 + 1) * record_bytes 2 2 (dtype_itemsize uint16) 384 0.
Proof.
  apply (read_mib_complete_file (single_file "scan.mib" 3236) "scan.mib"
           2 3 2 2 1 12 384 0 uint16 2 3236); try reflexivity; try lia.
  vm_compute. discriminate.
Defined.

(** ** Files that are missing or empty *)

(** X7.  For a supported bit depth and a path at which there is no file,
    the call raises [FileNotFoundError] after one access to the file
    system, whatever the other arguments: the [except ValueError] branch
    does not catch it, and no recovery is attempted. *)
Theorem read_mib_missing_file
    fs filepath xdim ydim kx ky flybackpix bit_depth header footer :
  supported bit_depth ->
  fs filepath = None ->
  snd (read_mib_to_np fs filepath xdim ydim kx ky flybackpix bit_depth header footer)
  = Raise FileNotFoundError
  /\ List.length
       (fst (read_mib_to_np fs filepath xdim ydim kx ky flybackpix bit_depth
               header footer)) = 1%nat
  /\ (0 <= header -> 0 <= kx -> 0 <= ky -> 0 <= footer ->
      read_mib_to_np fs filepath xdim ydim kx ky flybackpix bit_depth header footer
      = ([EvMemmap filepath], Raise FileNotFoundError)).
Proof.
  intros Hs Hfs.
  destruct (bit_depth_params_supported _ Hs) as (dt & b & Hbd & _).
  unfold read_mib_to_np. rewrite Hbd, bind_lift_ok.
  unfold np_memmap, os_path_getsize. rewrite Hfs.
  destruct (np_dtype_cases header dt kx ky footer) as [Hdt | Hdt].
  - rewrite Hdt. cbn. repeat split; reflexivity.
  - rewrite Hdt. cbn. repeat split; try reflexivity.
    intros Hh Hkx Hky Hf.
    rewrite (np_dtype_nonneg header dt kx ky footer Hh Hkx Hky Hf) in Hdt.
    discriminate.
Qed.

Lemma read_mib_missing_file_witness :
  snd (read_mib_to_np (single_file "scan.mib" 3136) "other.mib" 2 3 2 2 1 12 384 0)
  = Raise FileNotFoundError
  /\ List.length
       (fst (read_mib_to_np (single_file "scan.mib" 3136) "other.mib"
               2 3 2 2 1 12 384 0)) = 1%nat
  /\ (0 <= 384 -> 0 <= 2 -> 0 <= 2 -> 0 <= 0 ->
      read_mib_to_np (single_file "scan.mib" 3136) "other.mib" 2 3 2 2 1 12 384 0
      = ([EvMemmap "other.mib"], Raise FileNotFoundError)).
Proof.
  apply (read_mib_missing_file (single_file "scan.mib" 3136) "other.mib"
           2 3 2 2 1 12 384 0).
  - left; reflexivity.
  - reflexivity.
Defined.

(** X8.  An empty file, read with the usual kind of arguments (supported
    bit depth, a record of positive size, non-negative dimensions): the
    first mapping fails, the recomputed outer dimension is 0, the second
    mapping fails too, and its [ValueError] reaches the caller. *)
Theorem read_mib_empty_file
    fs filepath xdim ydim kx ky flybackpix bit_depth header footer dt b :
  bit_depth_params bit_depth = Ok (dt, b) ->
  0 <= header -> 0 <= kx -> 0 <= ky -> 0 <= footer ->
  0 < record_bytes kx ky b header footer ->
  0 <= xdim -> 0 <= ydim -> 0 <= flybackpix ->
  fs filepath = Some 0 ->
  read_mib_to_np fs filepath xdim ydim kx ky flybackpix bit_depth header footer
  = ([EvMemmap filepath; EvGetsize filepath; EvMemmap filepath], Raise ValueError).
Proof.
  intros Hbd Hh Hkx Hky Hf Hrec Hx Hy Hfl Hfs.
  rewrite (read_mib_unfold _ _ _ _ _ _ _ _ _ _ dt b Hbd Hh Hkx Hky Hf). cbv zeta.
  set (ft := mk_frametype header dt (kx, ky) footer).
  assert (Hi : 0 <= itemsize ft).
  { unfold ft. rewrite itemsize_record_bytes. unfold record_bytes.
    destruct dt; cbn; nia. }
  assert (H1 : np_memmap fs filepath ft (xdim, ydim + flybackpix)
               = ([EvMemmap filepath], Raise ValueError)).
  { rewrite (np_memmap_some _ _ _ _ _ _ Hfs).
    destruct (Z.ltb_spec (xdim * (ydim + flybackpix) * itemsize ft) 0); [nia|].
    destruct (Z.eqb_spec (xdim * (ydim + flybackpix) * itemsize ft) 0);
      [reflexivity|].
    cbn [andb].
    destruct (Z.ltb_spec 0 (xdim * (ydim + flybackpix) * itemsize ft));
      [reflexivity|lia]. }
  rewrite H1. cbn [bind try_except_ValueError].
  unfold os_path_getsize. rewrite Hfs. cbn [bind].
  unfold int_truediv. unfold record_bytes in Hrec.
  destruct (Z.eqb_spec ((ydim + 1) * (kx * ky * b + header + footer)) 0); [nia|].
  cbn [lift bind]. rewrite Z.quot_0_l by assumption.
  rewrite (np_memmap_some _ _ _ _ _ _ Hfs).
  change (0 * (ydim + flybackpix) * itemsize ft) with 0.
  cbn [Z.ltb Z.eqb Z.compare andb bind app]. reflexivity.
Qed.

Lemma read_mib_empty_file_witness :
  read_mib_to_np (single_file "scan.mib" 0) "scan.mib" 2 3 2 2 1 12 384 0
  = ([EvMemmap "scan.mib"; EvGetsize "scan.mib"; EvMemmap "scan.mib"],
     Raise ValueError).
Proof.
  apply (read_mib_empty_file (single_file "scan.mib" 0) "scan.mib"
           2 3 2 2 1 12 384 0 uint16 2); try reflexivity; try lia.
Defined.

(** ** Truncated files, default flyback *)

(** X9.  With [flybackpix = 1], on a file that is too short for the
    [xdim] rows asked for: the result holds the [k] scan rows that are
    complete in the file ([k] is the size of the file divided by the size
    of a row, rounded down, and it may be 0); the bytes of an incomplete
    last row are left out of the view. *)
Theorem read_mib_partial_rows
    fs filepath xdim ydim kx ky bit_depth header footer k dt b flen :
  bit_depth_params bit_depth = Ok (dt, b) ->
  b = dtype_itemsize dt ->
  0 <= header -> 0 <= kx -> 0 <= ky -> 0 <= footer ->
  0 < record_bytes kx ky b header footer ->
  0 <= ydim -> 0 <= k < xdim ->
  fs filepath = Some flen -> 0 < flen ->
  k * (ydim + 1) * record_bytes kx ky b header footer <= flen
  < (k + 1) * (ydim + 1) * record_bytes kx ky b header footer ->
  exists a,
    read_mib_to_np fs filepath xdim ydim kx ky 1 bit_depth header footer
    = ([EvMemmap filepath; EvGetsize filepath; EvMemmap filepath], Ok a)
    /\ scan_rows a = k /\ scan_cols a = ydim
    /\ det_rows a = kx /\ det_cols a = ky
    /\ mm_nbytes (base a) = k * (ydim + 1) * record_bytes kx ky b header footer.
Proof.
  intros Hbd Hb Hh Hkx Hky Hf Hrec Hy Hk Hfs Hpos Hlen.
  rewrite (read_mib_unfold _ _ _ _ _ _ _ _ _ _ dt b Hbd Hh Hkx Hky Hf). cbv zeta.
  set (ft := mk_frametype header dt (kx, ky) footer).
  assert (Hi : itemsize ft = record_bytes kx ky b header footer).
  { unfold ft. rewrite itemsize_record_bytes, Hb. reflexivity. }
  set (rec := record_bytes kx ky b header footer) in *.
  assert (Hrow : 0 < (ydim + 1) * rec) by nia.
  rewrite (np_memmap_short fs filepath ft xdim (ydim + 1) flen Hfs)
    by (rewrite Hi; nia).
  cbn [bind try_except_ValueError].
  unfold os_path_getsize. rewrite Hfs. cbn [bind].
  unfold int_truediv.
  change (kx * ky * b + header + footer) with rec.
  destruct (Z.eqb_spec ((ydim + 1) * rec) 0); [lia|].
  assert (Hq : Z.quot flen ((ydim + 1) * rec) = k).
  { rewrite Z.quot_div_nonneg by lia.
    symmetry. apply (Z.div_unique_pos flen ((ydim + 1) * rec) k (flen - k * ((ydim + 1) * rec)));
      lia. }
  rewrite Hq, bind_lift_ok.
  rewrite (np_memmap_fits fs filepath ft k (ydim + 1) flen Hfs)
    by (rewrite ?Hi; lia).
  cbn [bind ret app]. rewrite finish_view. cbn [app].
  eexists. split; [reflexivity|].
  pose proof (result_shape filepath header dt kx ky footer k ydim 1
                (k * (ydim + 1) * itemsize ft) ltac:(lia)) as Hs.
  cbv zeta in Hs. destruct Hs as (H1 & H2 & H3 & H4).
  fold ft in H1, H2, H3, H4.
  repeat split; try assumption.
  - rewrite H2. unfold kept_cols. change (1 >? 0) with true. cbv iota. lia.
  - change (1 >? 0) with true. cbv iota. cbn [base slice_scan_cols field_data mm_nbytes].
    rewrite Hi. reflexivity.
Qed.

(** A file of one complete row of two records, 392 bytes each, followed by
    500 bytes of the next row; three rows were asked for. *)
Lemma read_mib_partial_rows_witness :
  exists a,
    read_mib_to_np (single_file "scan.mib" 1284) "scan.mib" 3 1 2 2 1 12 384 0
    = ([EvMemmap "scan.mib"; EvGetsize "scan.mib"; EvMemmap "scan.mib"], Ok a)
    /\ scan_rows a = 1 /\ scan_cols a = 1
    /\ det_rows a = 2 /\ det_cols a = 2
    /\ mm_nbytes (base a) = 1 * (1 + 1) * record_bytes 2 2 2 384 0.
Proof.
  apply (read_mib_partial_rows (single_file "scan.mib" 1284) "scan.mib"
           3 1 2 2 12 384 0 1 uint16 2 1284); try reflexivity; try lia.
  vm_compute. split; [discriminate | reflexivity].
Defined.

(** ** Every successful call *)

Lemma np_memmap_pair fs path ft shape :
  np_memmap fs path ft shape = ([EvMemmap path], snd (np_memmap fs path ft shape)).
Proof. reflexivity. Qed.

Lemma read_mib_ok_dtype
    fs filepath xdim ydim kx ky flybackpix bit_depth header footer t a :
  read_mib_to_np fs filepath xdim ydim kx ky flybackpix bit_depth header footer
  = (t, Ok a) ->
  0 <= header /\ 0 <= kx /\ 0 <= ky /\ 0 <= footer.
Proof.
  unfold read_mib_to_np. intros H.
  apply bind_ok_inv in H as (t1 & [dt b] & t2 & Hbd & H & ->).
  apply bind_ok_inv in H as (t3 & [xd data] & t4 & Htry & H & ->).
  apply try_ok_inv in Htry as [Hb | (u1 & u2 & _ & Hh & _)].
  - apply bind_ok_inv in Hb as (? & ft & ? & Hft & Hb & _).
    apply lift_ok_inv in Hft as [Hft _].
    apply np_dtype_ok_inv in Hft. tauto.
  - apply bind_ok_inv in Hh as (? & file_size & ? & Hsz & Hh & _).
    apply bind_ok_inv in Hh as (? & xd' & ? & Hq & Hh & _).
    apply bind_ok_inv in Hh as (? & ft & ? & Hft & Hh & _).
    apply lift_ok_inv in Hft as [Hft _].
    apply np_dtype_ok_inv in Hft. tauto.
Qed.

(** A successful call is one of two runs: the first mapping succeeds, or
    it raises [ValueError] and the mapping of the recomputed number of
    rows succeeds. *)
Lemma read_mib_ok_cases
    fs filepath xdim ydim kx ky flybackpix bit_depth header footer t a :
  read_mib_to_np fs filepath xdim ydim kx ky flybackpix bit_depth header footer
  = (t, Ok a) ->
  exists dt b flen xd,
    let ft := mk_frametype header dt (kx, ky) footer in
    let m := mk_memmap filepath ft (xd, ydim + flybackpix)
               (xd * (ydim + flybackpix) * itemsize ft) in
    bit_depth_params bit_depth = Ok (dt, b)
    /\ fs filepath = Some flen
    /\ np_memmap fs filepath ft (xd, ydim + flybackpix) = ([EvMemmap filepath], Ok m)
    /\ a = (if flybackpix >? 0
            then slice_scan_cols (field_data m) (- flybackpix)
            else field_data m)
    /\ ((t = [EvMemmap filepath] /\ xd = xdim)
        \/ (t = [EvMemmap filepath; EvGetsize filepath; EvMemmap filepath]
            /\ np_memmap fs filepath ft (xdim, ydim + flybackpix)
               = ([EvMemmap filepath], Raise ValueError)
            /\ int_truediv flen ((ydim + 1) * (kx * ky * b + header + footer))
               = Ok xd)).
Proof.
  intros H.
  pose proof (read_mib_ok_dtype _ _ _ _ _ _ _ _ _ _ _ _ H) as (Hh & Hkx & Hky & Hf).
  destruct (bit_depth_params bit_depth) as [[dt b] | e] eqn:Hbd;
    [|unfold read_mib_to_np in H; rewrite Hbd in H; discriminate].
  rewrite (read_mib_unfold _ _ _ _ _ _ _ _ _ _ dt b Hbd Hh Hkx Hky Hf) in H.
  cbv zeta in H.
  set (ft := mk_frametype header dt (kx, ky) footer) in *.
  exists dt, b.
  rewrite (np_memmap_pair fs filepath ft (xdim, ydim + flybackpix)) in H.
  destruct (snd (np_memmap fs filepath ft (xdim, ydim + flybackpix)))
    as [m1 | e1] eqn:H1.
  - (* the first mapping succeeds *)
    cbn [bind ret app try_except_ValueError] in H.
    assert (Hm : np_memmap fs filepath ft (xdim, ydim + flybackpix)
                 = ([EvMemmap filepath], Ok m1))
      by (rewrite np_memmap_pair, H1; reflexivity).
    pose proof Hm as Hm'.
    apply np_memmap_ok_inv in Hm' as (-> & _ & _ & flen & Hfs & _).
    cbn [fst snd] in *.
    rewrite finish_view in H. cbn [app] in H.
    injection H as <- <-.
    exists flen, xdim. cbv zeta. repeat split; auto.
  - (* the first mapping raises *)
    destruct e1; try (cbn [bind ret app try_except_ValueError] in H; discriminate).
    cbn [bind ret app try_except_ValueError] in H.
    unfold os_path_getsize in H.
    destruct (fs filepath) as [flen|] eqn:Hfs; [|discriminate].
    cbn [bind] in H.
    destruct (int_truediv flen ((ydim + 1) * (kx * ky * b + header + footer)))
      as [xd | e2] eqn:Hq; [|discriminate].
    rewrite bind_lift_ok in H.
    rewrite (np_memmap_pair fs filepath ft (xd, ydim + flybackpix)) in H.
    destruct (snd (np_memmap fs filepath ft (xd, ydim + flybackpix)))
      as [m2 | e2] eqn:H2; [|discriminate].
    assert (Hm : np_memmap fs filepath ft (xd, ydim + flybackpix)
                 = ([EvMemmap filepath], Ok m2))
      by (rewrite np_memmap_pair, H2; reflexivity).
    pose proof Hm as Hm'.
    apply np_memmap_ok_inv in Hm' as (-> & _ & _ & flen' & Hfs' & _).
    cbn [fst snd] in *.
    cbn [bind ret app] in H.
    rewrite finish_view in H. cbn [app] in H.
    injection H as <- <-.
    exists flen, xd. cbv zeta. repeat split; auto.
    right. repeat split; auto.
    fold ft. rewrite np_memmap_pair, H1. reflexivity.
Qed.

(** X10.  The shape of every array that the call returns: the two
    detector dimensions are [kx] and [ky]; the scan-column dimension is
    [ydim] when [flybackpix > 0] (and [ydim >= 0]) and [ydim + flybackpix]
    otherwise, so that a negative [flybackpix] is not refused but shortens
    every scan row; no dimension is negative. *)
Theorem read_mib_result_shape
    fs filepath xdim ydim kx ky flybackpix bit_depth header footer t a :
  read_mib_to_np fs filepath xdim ydim kx ky flybackpix bit_depth header footer
  = (t, Ok a) ->
  det_rows a = kx /\ det_cols a = ky
  /\ scan_cols a = (if flybackpix >? 0 then Z.max 0 ydim else ydim + flybackpix)
  /\ 0 <= scan_rows a /\ 0 <= scan_cols a /\ 0 <= det_rows a /\ 0 <= det_cols a.
Proof.
  intros H.
  pose proof (read_mib_ok_dtype _ _ _ _ _ _ _ _ _ _ _ _ H) as (Hh & Hkx & Hky & Hf).
  apply read_mib_ok_cases in H as (dt & b & flen & xd & H). cbv zeta in H.
  destruct H as (_ & _ & Hm & -> & _).
  apply np_memmap_ok_inv in Hm as (_ & Hx & Hc & _). cbn [fst snd] in Hx, Hc.
  pose proof (result_shape filepath header dt kx ky footer xd ydim flybackpix
                (xd * (ydim + flybackpix)
                 * itemsize (mk_frametype header dt (kx, ky) footer)) Hc) as Hs.
  cbv zeta in Hs. destruct Hs as (H1 & H2 & H3 & H4).
  rewrite H1, H2, H3, H4. unfold kept_cols.
  repeat split; try assumption.
  destruct (Z.gtb_spec flybackpix 0); lia.
Qed.

(** A complete file read with [flybackpix = -1]: two of the three scan
    columns are returned. *)
Lemma read_mib_result_shape_witness :
  det_rows (mk_ndarray4 2 2 2 2 (view_of "scan.mib" 384 uint16 2 2 0 2 2)) = 2
  /\ det_cols (mk_ndarray4 2 2 2 2 (view_of "scan.mib" 384 uint16 2 2 0 2 2)) = 2
  /\ scan_cols (mk_ndarray4 2 2 2 2 (view_of "scan.mib" 384 uint16 2 2 0 2 2))
     = (if -1 >? 0 then Z.max 0 3 else 3 + -1)
  /\ 0 <= scan_rows (mk_ndarray4 2 2 2 2 (view_of "scan.mib" 384 uint16 2 2 0 2 2))
  /\ 0 <= scan_cols (mk_ndarray4 2 2 2 2 (view_of "scan.mib" 384 uint16 2 2 0 2 2))
  /\ 0 <= det_rows (mk_ndarray4 2 2 2 2 (view_of "scan.mib" 384 uint16 2 2 0 2 2))
  /\ 0 <= det_cols (mk_ndarray4 2 2 2 2 (view_of "scan.mib" 384 uint16 2 2 0 2 2)).
Proof.
  apply (read_mib_result_shape (single_file "scan.mib" 2352) "scan.mib"
           2 3 2 2 (-1) 12 384 0 [EvMemmap "scan.mib"]).
  reflexivity.
Defined.

Lemma read_mib_ok_runs
    fs filepath xdim ydim kx ky flybackpix bit_depth header footer t a :
  read_mib_to_np fs filepath xdim ydim kx ky flybackpix bit_depth header footer
  = (t, Ok a) ->
  0 <= xdim ->
  (t = [EvMemmap filepath] /\ scan_rows a = xdim)
  \/ (t = [EvMemmap filepath; EvGetsize filepath; EvMemmap filepath]
      /\ 0 <= scan_rows a < xdim
      /\ exists dt b flen,
           bit_depth_params bit_depth = Ok (dt, b)
           /\ fs filepath = Some flen
           /\ flen < xdim * (ydim + flybackpix)
                     * record_bytes kx ky (dtype_itemsize dt) header footer).
Proof.
  intros H Hx.
  apply read_mib_ok_cases in H as (dt & b & flen & xd & H). cbv zeta in H.
  destruct H as (Hbd & Hfs & Hm & -> & Hrun).
  set (ft := mk_frametype header dt (kx, ky) footer) in *.
  assert (Hrows : scan_rows
                    (if flybackpix >? 0
                     then slice_scan_cols
                            (field_data (mk_memmap filepath ft (xd, ydim + flybackpix)
                                           (xd * (ydim + flybackpix) * itemsize ft)))
                            (- flybackpix)
                     else field_data (mk_memmap filepath ft (xd, ydim + flybackpix)
                                        (xd * (ydim + flybackpix) * itemsize ft)))
                  = xd)
    by (destruct (flybackpix >? 0); reflexivity).
  rewrite Hrows.
  destruct Hrun as [[-> ->] | (-> & H1 & Hq)]; [left; auto | right].
  split; [reflexivity|].
  pose proof Hm as Hm'.
  apply np_memmap_ok_inv in Hm' as (_ & Hxd & Hc & flen' & Hfs' & Hle).
  cbn [fst snd] in Hxd, Hc, Hle.
  rewrite Hfs in Hfs'. injection Hfs' as <-.
  rewrite (np_memmap_some _ _ _ _ _ _ Hfs) in H1.
  rewrite (np_memmap_some _ _ _ _ _ _ Hfs) in Hm.
  assert (Hshort : flen < xdim * (ydim + flybackpix) * itemsize ft).
  { destruct (Z.ltb_spec (xdim * (ydim + flybackpix) * itemsize ft) 0);
      [discriminate|].
    destruct (Z.eqb_spec (xdim * (ydim + flybackpix) * itemsize ft) 0) as [E0 | E0];
      destruct (Z.eqb_spec flen 0) as [F0 | F0]; cbn [andb] in H1.
    - (* an empty file: the second mapping cannot succeed *)
      exfalso. subst flen.
      assert (Hz : xd * (ydim + flybackpix) * itemsize ft = 0) by lia.
      rewrite Hz in Hm. cbn in Hm. discriminate.
    - destruct (Z.ltb_spec flen (xdim * (ydim + flybackpix) * itemsize ft));
        [assumption|].
      destruct (Z.ltb_spec xdim 0); [lia|]. cbn [orb] in H1.
      destruct (Z.ltb_spec (ydim + flybackpix) 0); [lia | discriminate].
    - destruct (Z.ltb_spec flen (xdim * (ydim + flybackpix) * itemsize ft));
        [assumption|].
      destruct (Z.ltb_spec xdim 0); [lia|]. cbn [orb] in H1.
      destruct (Z.ltb_spec (ydim + flybackpix) 0); [lia | discriminate].
    - destruct (Z.ltb_spec flen (xdim * (ydim + flybackpix) * itemsize ft));
        [assumption|].
      destruct (Z.ltb_spec xdim 0); [lia|]. cbn [orb] in H1.
      destruct (Z.ltb_spec (ydim + flybackpix) 0); [lia | discriminate]. }
  split.
  - split; [assumption|].
    rewrite <- !Z.mul_assoc in Hle, Hshort.
    assert (HP : 0 < (ydim + flybackpix) * itemsize ft) by nia.
    nia.
  - exists dt, b, flen. repeat split; auto.
    unfold ft in Hshort. rewrite itemsize_record_bytes in Hshort. exact Hshort.
Qed.

(** X11.  Never more rows than asked for.  A successful call with
    [xdim >= 0] is one of two runs: one access to the file and exactly
    [xdim] scan rows; or three accesses (failed mapping, size query,
    second mapping), on a file too short for the view asked for, and
    strictly fewer than [xdim] scan rows. *)
Theorem read_mib_rows_at_most_requested
    fs filepath xdim ydim kx ky flybackpix bit_depth header footer t a :
  read_mib_to_np fs filepath xdim ydim kx ky flybackpix bit_depth header footer
  = (t, Ok a) ->
  0 <= xdim ->
  (t = [EvMemmap filepath] /\ scan_rows a = xdim)
  \/ (t = [EvMemmap filepath; EvGetsize filepath; EvMemmap filepath]
      /\ 0 <= scan_rows a < xdim
      /\ exists dt b flen,
           bit_depth_params bit_depth = Ok (dt, b)
           /\ fs filepath = Some flen
           /\ flen < xdim * (ydim + flybackpix)
                     * record_bytes kx ky (dtype_itemsize dt) header footer).
Proof.
  exact (read_mib_ok_runs fs filepath xdim ydim kx ky flybackpix bit_depth header
           footer t a).
Qed.

Lemma read_mib_rows_at_most_requested_witness :
  ([EvMemmap "scan.mib"; EvGetsize "scan.mib"; EvMemmap "scan.mib"]
   = [EvMemmap "scan.mib"]
   /\ scan_rows (mk_ndarray4 1 1 2 2 (view_of "scan.mib" 384 uint16 2 2 0 1 2)) = 3)
  \/ ([EvMemmap "scan.mib"; EvGetsize "scan.mib"; EvMemmap "scan.mib"]
      = [EvMemmap "scan.mib"; EvGetsize "scan.mib"; EvMemmap "scan.mib"]
      /\ 0 <= scan_rows (mk_ndarray4 1 1 2 2 (view_of "scan.mib" 384 uint16 2 2 0 1 2))
         < 3
      /\ exists dt b flen,
           bit_depth_params 12 = Ok (dt, b)
           /\ single_file "scan.mib" 1284 "scan.mib" = Some flen
           /\ flen < 3 * (1 + 1) * record_bytes 2 2 (dtype_itemsize dt) 384 0).
Proof.
  apply (read_mib_rows_at_most_requested (single_file "scan.mib" 1284) "scan.mib"
           3 1 2 2 1 12 384 0).
  - reflexivity.
  - lia.
Defined.

(** ** The accesses of any call *)

(** X12.  Whatever the arguments and the file system, a call accesses only
    [filepath], at most three times: the file is mapped at most twice and
    its size is asked for at most once, after a first attempt has failed
    and before the second mapping. *)
Theorem read_mib_accesses
    fs filepath xdim ydim kx ky flybackpix bit_depth header footer :
  In (fst (read_mib_to_np fs filepath xdim ydim kx ky flybackpix bit_depth
             header footer))
     [ [];
       [EvMemmap filepath];
       [EvGetsize filepath];
       [EvMemmap filepath; EvGetsize filepath];
       [EvMemmap filepath; EvGetsize filepath; EvMemmap filepath] ].
Proof.
  unfold read_mib_to_np.
  destruct (bit_depth_params bit_depth) as [[dt b] | e]; [|cbn; auto].
  rewrite bind_lift_ok.
  destruct (np_dtype_cases header dt kx ky footer) as [Hdt | Hdt]; rewrite Hdt.
  - rewrite !bind_lift_ok.
    set (ft := mk_frametype header dt (kx, ky) footer).
    rewrite (np_memmap_pair fs filepath ft (xdim, ydim + flybackpix)).
    destruct (snd (np_memmap fs filepath ft (xdim, ydim + flybackpix)))
      as [m1 | e1].
    + cbn [bind ret app try_except_ValueError].
      destruct (reshape2 m1 xdim (ydim + flybackpix)); cbn [lift bind app];
        [destruct (flybackpix >? 0)|]; cbn; auto.
    + destruct e1; try (cbn; auto; fail).
      cbn [bind ret app try_except_ValueError].
      unfold os_path_getsize.
      destruct (fs filepath) as [flen|]; [|cbn; auto 6].
      cbn [bind].
      destruct (int_truediv flen ((ydim + 1) * (kx * ky * b + header + footer)))
        as [xd | e2]; [|cbn; auto 6].
      rewrite !bind_lift_ok.
      rewrite (np_memmap_pair fs filepath ft (xd, ydim + flybackpix)).
      destruct (snd (np_memmap fs filepath ft (xd, ydim + flybackpix)))
        as [m2 | e2]; [|cbn; auto 8].
      cbn [bind ret app].
      destruct (reshape2 m2 xd (ydim + flybackpix)); cbn [lift bind app];
        [destruct (flybackpix >? 0)|]; cbn; auto 8.
  - cbn [lift bind try_except_ValueError app].
    unfold os_path_getsize.
    destruct (fs filepath) as [flen|]; [|cbn; auto 6].
    cbn [bind].
    destruct (int_truediv flen ((ydim + 1) * (kx * ky * b + header + footer)))
      as [xd | e2]; cbn; auto 6.
Qed.

(** ** read_mib_from_dmscan *)

(** X13.  When the scan image loads but its array is not two-dimensional,
    the unpacking of line 119 raises [ValueError]: the data file is not
    accessed, and the bit depth is not looked at. *)
Theorem read_mib_from_dmscan_not_2d
    hs_load fs dmpath mibpath kx ky flybackpix bit_depth header footer s :
  hs_load dmpath = Ok s ->
  List.length (signal_data_shape s) <> 2%nat ->
  read_mib_from_dmscan hs_load fs dmpath mibpath kx ky flybackpix bit_depth
    header footer
  = ([], Raise ValueError).
Proof.
  intros Hs Hlen. unfold read_mib_from_dmscan. rewrite Hs, bind_lift_ok.
  destruct (signal_data_shape s) as [|x [|y [|z l]]]; cbn in Hlen; try reflexivity.
  contradiction.
Qed.

(** A three-dimensional scan image, an unsupported bit depth, no data
    file. *)
Lemma read_mib_from_dmscan_not_2d_witness :
  read_mib_from_dmscan (load_one "scan.dm4" [2; 3; 4]) (single_file "scan.mib" 0)
    "scan.dm4" "other.mib" 2 2 1 24 384 0
  = ([], Raise ValueError).
Proof.
  apply (read_mib_from_dmscan_not_2d (load_one "scan.dm4" [2; 3; 4])
           (single_file "scan.mib" 0) "scan.dm4" "other.mib" 2 2 1 24 384 0
           (mk_signal [2; 3; 4])).
  - reflexivity.
  - cbn. lia.
Defined.

(** X14.  Every successful call of [read_mib_from_dmscan]: the scan image
    was loaded and is two-dimensional, of shape (xdim, ydim); the result
    and the accesses are those of [read_mib_to_np] for that shape; and
    the result has at most [xdim] scan rows (fewer when the data file is
    truncated), the first dimension of the scan image being the one that
    counts the scan rows. *)
Theorem read_mib_from_dmscan_ok
    hs_load fs dmpath mibpath kx ky flybackpix bit_depth header footer t a :
  read_mib_from_dmscan hs_load fs dmpath mibpath kx ky flybackpix bit_depth
    header footer
  = (t, Ok a) ->
  exists s xdim ydim,
    hs_load dmpath = Ok s
    /\ signal_data_shape s = [xdim; ydim]
    /\ read_mib_to_np fs mibpath xdim ydim kx ky flybackpix bit_depth header footer
       = (t, Ok a)
    /\ (0 <= xdim -> 0 <= scan_rows a <= xdim)
    /\ (0 <= xdim -> scan_rows a < xdim ->
        t = [EvMemmap mibpath; EvGetsize mibpath; EvMemmap mibpath]).
Proof.
  unfold read_mib_from_dmscan. intros H.
  apply bind_ok_inv in H as (t1 & s & t2 & Hs & H & ->).
  apply lift_ok_inv in Hs as [Hs ->].
  apply bind_ok_inv in H as (t3 & [xdim ydim] & t4 & Hu & H & ->).
  apply lift_ok_inv in Hu as [Hu ->].
  apply bind_ok_inv in H as (t5 & a' & t6 & Hr & H & ->).
  apply ret_ok_inv in H as [-> ->].
  cbn [app]. rewrite app_nil_r.
  exists s, xdim, ydim.
  assert (Hshape : signal_data_shape s = [xdim; ydim]).
  { unfold unpack2 in Hu.
    destruct (signal_data_shape s) as [|x [|y [|z l]]]; try discriminate.
    injection Hu as -> ->. reflexivity. }
  split; [exact Hs|]. split; [exact Hshape|]. split; [exact Hr|]. split.
  - intros Hx.
    destruct (read_mib_ok_runs _ _ _ _ _ _ _ _ _ _ _ _ Hr Hx)
      as [[_ E] | (_ & E & _)]; lia.
  - intros Hx Hlt.
    destruct (read_mib_ok_runs _ _ _ _ _ _ _ _ _ _ _ _ Hr Hx)
      as [[_ E] | (E & _)]; [lia | exact E].
Qed.

(** A scan image of shape (3, 1) and a data file that holds one complete
    row and part of the next. *)
Lemma read_mib_from_dmscan_ok_witness :
  exists s xdim ydim,
    load_one "scan.dm4" [3; 1] "scan.dm4" = Ok s
    /\ signal_data_shape s = [xdim; ydim]
    /\ read_mib_to_np (single_file "scan.mib" 1284) "scan.mib" xdim ydim 2 2 1 12 384 0
       = ([EvMemmap "scan.mib"; EvGetsize "scan.mib"; EvMemmap "scan.mib"],
          Ok (mk_ndarray4 1 1 2 2 (view_of "scan.mib" 384 uint16 2 2 0 1 2)))
    /\ (0 <= xdim
        -> 0 <= scan_rows (mk_ndarray4 1 1 2 2 (view_of "scan.mib" 384 uint16 2 2 0 1 2))
           <= xdim)
    /\ (0 <= xdim
        -> scan_rows (mk_ndarray4 1 1 2 2 (view_of "scan.mib" 384 uint16 2 2 0 1 2))
           < xdim
        -> [EvMemmap "scan.mib"; EvGetsize "scan.mib"; EvMemmap "scan.mib"]
           = [EvMemmap "scan.mib"; EvGetsize "scan.mib"; EvMemmap "scan.mib"]).
Proof.
  apply (read_mib_from_dmscan_ok (load_one "scan.dm4" [3; 1])
           (single_file "scan.mib" 1284) "scan.dm4" "scan.mib" 2 2 1 12 384 0).
  reflexivity.
Defined.

End ReadBehaviour.

(* ================================================================== *)
(** * Further properties of io/directorylisting.py *)
(* ================================================================== *)

Module ListingOrder.

Import DirectoryListing ListingNotions.

(** ** The order of [sorted] *)

Lemma ascii_compare_trans_le (a b c : ascii) :
  Ascii.compare a b <> Gt -> Ascii.compare b c <> Gt -> Ascii.compare a c <> Gt.
Proof.
  unfold Ascii.compare. rewrite !N.compare_le_iff. lia.
Qed.

Lemma ascii_compare_lt_le (a b c : ascii) :
  Ascii.compare a b = Lt -> Ascii.compare b c <> Gt -> Ascii.compare a c = Lt.
Proof.
  unfold Ascii.compare. rewrite N.compare_le_iff, !N.compare_lt_iff. lia.
Qed.

Lemma string_compare_trans_le (s1 : string) :
  forall s2 s3,
    String.compare s1 s2 <> Gt -> String.compare s2 s3 <> Gt ->
    String.compare s1 s3 <> Gt.
Proof.
  induction s1 as [|a s1 IH]; intros [|b s2] [|c s3]; cbn; try congruence.
  destruct (Ascii.compare a b) eqn:Hab; try congruence;
    destruct (Ascii.compare b c) eqn:Hbc; try congruence; intros H12 H23.
  - apply Ascii.compare_eq_iff in Hab, Hbc. subst.
    assert (Hcc : Ascii.compare c c = Eq).
    { unfold Ascii.compare. apply N.compare_refl. }
    rewrite Hcc. eauto.
  - apply Ascii.compare_eq_iff in Hab. subst. rewrite Hbc. congruence.
  - apply Ascii.compare_eq_iff in Hbc. subst. rewrite Hab. congruence.
  - rewrite (ascii_compare_lt_le a b c Hab) by congruence. congruence.
Qed.

Lemma le_string_trans (a b c : string) :
  le_string a b -> le_string b c -> le_string a c.
Proof.
  unfold le_string, String.leb. intros Hab Hbc.
  pose proof (string_compare_trans_le a b c) as H.
  destruct (String.compare a b); try discriminate;
    destruct (String.compare b c); try discriminate;
    destruct (String.compare a c); try reflexivity;
    exfalso; apply H; congruence.
Qed.

Lemma le_string_total (a b : string) : le_string a b \/ le_string b a.
Proof. apply String.leb_total. Qed.

Lemma le_string_antisym (a b : string) : le_string a b -> le_string b a -> a = b.
Proof. apply String.leb_antisym. Qed.

(** ** Insertion sort *)

Lemma insert_sorted_perm (s : string) (l : list string) :
  Permutation (s :: l) (insert_sorted s l).
Proof.
  induction l as [|x l IH]; cbn; [apply Permutation_refl|].
  destruct (String.leb s x); [apply Permutation_refl|].
  eapply perm_trans; [apply perm_swap|]. apply perm_skip, IH.
Qed.

Lemma sorted_perm (l : list string) : Permutation l (sorted l).
Proof.
  induction l as [|x l IH]; cbn; [constructor|].
  eapply perm_trans; [apply perm_skip, IH | apply insert_sorted_perm].
Qed.

Lemma insert_sorted_hdrel (s a : string) (l : list string) :
  le_string a s -> HdRel le_string a l -> HdRel le_string a (insert_sorted s l).
Proof.
  intros Has Hl. destruct l as [|x l]; cbn; [constructor; exact Has|].
  destruct (String.leb s x); constructor; [exact Has|].
  inversion Hl; assumption.
Qed.

Lemma insert_sorted_sorted (s : string) (l : list string) :
  Sorted le_string l -> Sorted le_string (insert_sorted s l).
Proof.
  induction l as [|x l IH]; intros Hs; cbn; [repeat constructor|].
  destruct (String.leb s x) eqn:Hsx.
  - constructor; [exact Hs | constructor; exact Hsx].
  - inversion Hs as [|? ? Hl Hhd]; subst.
    constructor; [apply IH, Hl|].
    apply insert_sorted_hdrel; [|exact Hhd].
    destruct (le_string_total x s) as [H | H]; [exact H|].
    unfold le_string in H. congruence.
Qed.

Lemma sorted_sorted (l : list string) : Sorted le_string (sorted l).
Proof.
  induction l as [|x l IH]; cbn; [constructor | apply insert_sorted_sorted, IH].
Qed.

(** Two sorted lists with the same entries are the same list. *)
Lemma sorted_unique (l1 : list string) :
  forall l2, Sorted le_string l1 -> Sorted le_string l2 ->
             Permutation l1 l2 -> l1 = l2.
Proof.
  induction l1 as [|x l1 IH]; intros l2 H1 H2 Hp.
  - apply Permutation_nil in Hp. now subst.
  - destruct l2 as [|y l2]; [apply Permutation_sym, Permutation_nil in Hp; discriminate|].
    apply Sorted_StronglySorted in H1; [|intros a b c; apply le_string_trans].
    apply Sorted_StronglySorted in H2; [|intros a b c; apply le_string_trans].
    inversion H1 as [|? ? Hs1 Hall1]; inversion H2 as [|? ? Hs2 Hall2]; subst.
    assert (Hxy : x = y).
    { assert (Hx : In x (y :: l2)) by (eapply Permutation_in; [exact Hp | left; reflexivity]).
      assert (Hy : In y (x :: l1))
        by (eapply Permutation_in; [apply Permutation_sym, Hp | left; reflexivity]).
      destruct Hx as [-> | Hx]; [reflexivity|].
      destruct Hy as [-> | Hy]; [reflexivity|].
      rewrite Forall_forall in Hall1, Hall2.
      apply le_string_antisym; [apply Hall1, Hy | apply Hall2, Hx]. }
    subst y. f_equal.
    apply IH; [apply StronglySorted_Sorted, Hs1 | apply StronglySorted_Sorted, Hs2|].
    eapply Permutation_cons_inv, Hp.
Qed.

(** ** [file_list] with a text pattern *)

Lemma select_filter (fnmatch : string -> string -> bool) (pattern : string)
    (paths acc : list string) :
  fold_left
    (fun files file => if fnmatch file pattern then (files ++ [file])%list else files)
    paths acc
  = acc ++ filter (fun file => fnmatch file pattern) paths.
Proof.
  revert acc. induction paths as [|x paths IH]; intros acc; cbn.
  - now rewrite app_nil_r.
  - destruct (fnmatch x pattern); rewrite IH; [|reflexivity].
    now rewrite <- app_assoc.
Qed.

Lemma file_list_text_result (os_listdir : string -> result (list string))
    (fnmatch : string -> string -> bool) (path pattern : string)
    (paths : list string) :
  os_listdir path = Ok paths ->
  file_list os_listdir fnmatch path (PyStr pattern)
  = mk_outcome []
      (Ok (RetList (sorted (filter (fun file => fnmatch file pattern) paths)))).
Proof.
  intros H. unfold file_list. rewrite H, select_filter. reflexivity.
Qed.

(** X4.  For a directory that can be listed and a text pattern,
    [file_list] prints nothing and returns a list in ascending order that
    holds exactly the entries of the directory that match the pattern,
    each as often as the listing has it. *)
Theorem file_list_sorted_matches :
  forall (os_listdir : string -> result (list string))
         (fnmatch : string -> string -> bool)
         (path pattern : string) (paths : list string),
    os_listdir path = Ok paths ->
    exists files : list string,
      file_list os_listdir fnmatch path (PyStr pattern)
      = mk_outcome [] (Ok (RetList files))
      /\ Sorted le_string files
      /\ Permutation files (filter (fun file => fnmatch file pattern) paths)
      /\ (forall name, In name files
                       <-> In name paths /\ fnmatch name pattern = true).
Proof.
  intros os_listdir fnmatch path pattern paths H.
  exists (sorted (filter (fun file => fnmatch file pattern) paths)).
  split; [apply file_list_text_result, H|].
  split; [apply sorted_sorted|].
  split; [apply Permutation_sym, sorted_perm|].
  intros name. split; intros Hin.
  - apply (filter_In (fun file => fnmatch file pattern)).
    eapply Permutation_in; [apply Permutation_sym, sorted_perm | exact Hin].
  - apply (filter_In (fun file => fnmatch file pattern)) in Hin.
    eapply Permutation_in; [apply sorted_perm | exact Hin].
Qed.

Lemma file_list_sorted_matches_witness :
  exists files : list string,
    file_list listdir_two match_all "/data/" (PyStr "*")
    = mk_outcome [] (Ok (RetList files))
    /\ Sorted le_string files
    /\ Permutation files (filter (fun file => match_all file "*") ["b.txt"; "a.h5"])
    /\ (forall name, In name files
                     <-> In name ["b.txt"; "a.h5"] /\ match_all name "*" = true).
Proof.
  apply (file_list_sorted_matches listdir_two match_all "/data/" "*" ["b.txt"; "a.h5"]).
  reflexivity.
Defined.

(** X5.  The result does not depend on the order in which the directory
    is listed: two listings with the same entries give the same list. *)
Theorem file_list_listing_order :
  forall (listdir1 listdir2 : string -> result (list string))
         (fnmatch : string -> string -> bool)
         (path pattern : string) (paths1 paths2 : list string),
    listdir1 path = Ok paths1 ->
    listdir2 path = Ok paths2 ->
    Permutation paths1 paths2 ->
    file_list listdir1 fnmatch path (PyStr pattern)
    = file_list listdir2 fnmatch path (PyStr pattern).
Proof.
  intros listdir1 listdir2 fnmatch path pattern paths1 paths2 H1 H2 Hp.
  rewrite (file_list_text_result listdir1 fnmatch path pattern paths1 H1).
  rewrite (file_list_text_result listdir2 fnmatch path pattern paths2 H2).
  do 3 f_equal.
  apply sorted_unique; try apply sorted_sorted.
  eapply perm_trans; [apply Permutation_sym, sorted_perm|].
  eapply perm_trans; [|apply sorted_perm].
  clear H1 H2. induction Hp; cbn.
  - constructor.
  - destruct (fnmatch x pattern); [apply perm_skip|]; assumption.
  - destruct (fnmatch x pattern), (fnmatch y pattern);
      try apply Permutation_refl. apply perm_swap.
  - eapply perm_trans; eassumption.
Qed.

Lemma file_list_listing_order_witness :
  file_list listdir_two match_all "/data/" (PyStr "*")
  = file_list (fun _ => Ok ["a.h5"; "b.txt"]) match_all "/data/" (PyStr "*").
Proof.
  apply (file_list_listing_order listdir_two (fun _ => Ok ["a.h5"; "b.txt"])
           match_all "/data/" "*" ["b.txt"; "a.h5"] ["a.h5"; "b.txt"]).
  - reflexivity.
  - reflexivity.
  - apply perm_swap.
Defined.

End ListingOrder.

(* ================================================================== *)
(** * Further properties of process/polar.py *)
(* ================================================================== *)

Module PolarBehaviour.

Import Numpy Polar PolarNotions PolarFacts ExactFacts PolarClaims.

(** ** The mesh *)



(** In binary64 the grid of 4 segments has the azimuths 0, pi/2, pi and
    3 pi/2, as floats. *)
Example binary64_azimuths_4 (libm_sin libm_cos : float -> float) :
  len (azimuths (F64 := Binary64 libm_sin libm_cos) 4) = 4%nat
  /\ at1 (azimuths (F64 := Binary64 libm_sin libm_cos) 4) 0 = 0%float
  /\ at1 (azimuths (F64 := Binary64 libm_sin libm_cos) 4) 1
     = 0x1.921fb54442d18p+0%float
  /\ at1 (azimuths (F64 := Binary64 libm_sin libm_cos) 4) 2
     = 0x1.921fb54442d18p+1%float
  /\ at1 (azimuths (F64 := Binary64 libm_sin libm_cos) 4) 3
     = 0x1.2d97c7f3321d2p+2%float.
Proof. repeat split; vm_compute; reflexivity. Qed.

(** ** Outcomes of [polarttransform] *)




(** X16.  An empty range of radii, in every arithmetic (float64
    included): when [rmax <= rmin], [segments >= 1] and the azimuth grid
    has [segments] entries, the call returns an array with no row, of
    shape (0, segments), whatever the image and the centre. *)
Theorem polarttransform_empty_range :
  forall (F : Type) (F64 : Float64 F) (DP : array2 F) (ci cj : F)
         (rmin rmax segments : Z) (simple : bool),
    rmax <= rmin ->
    1 <= segments ->
    len (azimuths segments) = Z.to_nat segments ->
    exists out : array2 F,
      polarttransform DP ci cj rmin rmax segments simple = Ok out
      /\ shape out = (0%nat, Z.to_nat segments).
Proof.
  intros F F64 DP ci cj rmin rmax segments simple Hr Hs HS.
  destruct (polarttransform_ok DP ci cj rmin rmax segments simple Hs HS)
    as (out & H & Hshape & _).
  { intros k ri _ Hri. lia. }
  exists out. split; [exact H|].
  rewrite Hshape. replace (Z.to_nat (rmax - rmin)) with 0%nat by lia. reflexivity.
Qed.

Lemma polarttransform_empty_range_witness :
  exists out : array2 float,
    polarttransform (F64 := Binary64_at_zero) image_1x3_f64 1000%float 1000%float
      5 5 4 true = Ok out
    /\ shape out = (0%nat, Z.to_nat 4).
Proof.
  apply (polarttransform_empty_range float Binary64_at_zero image_1x3_f64
           1000%float 1000%float 5 5 4 true).
  - lia.
  - lia.
  - vm_compute. reflexivity.
Defined.

(** ** Entries *)

(** X18.  The entries of the nearest-pixel transform, in every arithmetic
    (float64 included).  When the call returns, the entry at radius index
    [ri] and azimuth index [k] is [DP[i, j] * area weight], where [i] and
    [j] are the two coordinates of the sample, rounded by [np.round] and
    converted to int16; both are valid indices of [DP] (a negative one
    counts from the end). *)
Theorem polarttransform_nearest_entry :
  forall (F : Type) (F64 : Float64 F) (DP : array2 F) (ci cj : F)
         (rmin rmax segments : Z) (out : array2 F) (ri k : nat),
    polarttransform DP ci cj rmin rmax segments true = Ok out ->
    (ri < Z.to_nat (rmax - rmin))%nat ->
    (k < len (azimuths segments))%nat ->
    index_ok (rows DP) (astype_int16 (np_round (sample_row ci rmin segments k ri)))
    = true
    /\ index_ok (cols DP) (astype_int16 (np_round (sample_col cj rmin segments k ri)))
       = true
    /\ at2 out ri k
       = (at2 DP
            (norm_index (rows DP)
               (astype_int16 (np_round (sample_row ci rmin segments k ri))))
            (norm_index (cols DP)
               (astype_int16 (np_round (sample_col cj rmin segments k ri))))
          * area_weight rmin segments ri)%f64.
Proof.
  intros F F64 DP ci cj rmin rmax segments out ri k H Hri Hk.
  destruct (polarttransform_ok_entries DP ci cj rmin rmax segments true out H
              ri k Hri Hk) as [Hok Hat].
  unfold sample_ok in Hok. cbv zeta in Hok. apply andb_true_iff in Hok as [H1 H2].
  split; [exact H1|]. split; [exact H2|]. exact Hat.
Qed.

(** The nearest-pixel transform of the float64 image (10, 20, 30) with
    centre (0, 0.4), radius 1 and one segment, in binary64: the sample is
    at (0, 1.4), and pixel (0, 1) is read. *)
Lemma image_1x3_f64_off_pixel :
  exists out : array2 float,
    polarttransform (F64 := Binary64_at_zero) image_1x3_f64 0%float f64_0_4
      1 2 1 true = Ok out.
Proof.
  destruct (polarttransform_ok (F64 := Binary64_at_zero)
              image_1x3_f64 0%float f64_0_4 1 2 1 true)
    as (out & H & _).
  - lia.
  - vm_compute. reflexivity.
  - intros k ri Hk Hri.
    assert (Hk0 : k = 0%nat) by (vm_compute in Hk; lia).
    assert (Hr0 : ri = 0%nat) by (vm_compute in Hri; lia).
    subst. vm_compute. reflexivity.
  - exists out. exact H.
Qed.

Lemma polarttransform_nearest_entry_witness :
  exists out : array2 float,
    polarttransform (F64 := Binary64_at_zero) image_1x3_f64 0%float f64_0_4
      1 2 1 true = Ok out
    /\ index_ok (rows image_1x3_f64)
         (astype_int16 (F64 := Binary64_at_zero)
            (np_round (Float64 := Binary64_at_zero)
               (sample_row (F64 := Binary64_at_zero) 0%float 1 1 0 0))) = true
    /\ index_ok (cols image_1x3_f64)
         (astype_int16 (F64 := Binary64_at_zero)
            (np_round (Float64 := Binary64_at_zero)
               (sample_col (F64 := Binary64_at_zero) f64_0_4 1 1 0 0))) = true
    /\ at2 out 0 0
       = fmul (Float64 := Binary64_at_zero)
           (at2 image_1x3_f64
              (norm_index (rows image_1x3_f64)
                 (astype_int16 (F64 := Binary64_at_zero)
                    (np_round (Float64 := Binary64_at_zero)
                       (sample_row (F64 := Binary64_at_zero) 0%float 1 1 0 0))))
              (norm_index (cols image_1x3_f64)
                 (astype_int16 (F64 := Binary64_at_zero)
                    (np_round (Float64 := Binary64_at_zero)
                       (sample_col (F64 := Binary64_at_zero) f64_0_4 1 1 0 0)))))
           (area_weight (F64 := Binary64_at_zero) 1 1 0).
Proof.
  destruct image_1x3_f64_off_pixel as (out & H).
  exists out. split; [exact H|].
  apply (polarttransform_nearest_entry float Binary64_at_zero image_1x3_f64
           0%float f64_0_4 1 2 1 out 0 0 H).
  - vm_compute. lia.
  - vm_compute. lia.
Defined.

(** X19.  The entries of the bilinear transform, in every arithmetic
    (float64 included).  When the call returns, the four neighbour
    indices of every sample (floor and far neighbour of each coordinate)
    are valid indices of [DP], and the entry at radius index [ri] and
    azimuth index [k] is
    [(DP_ul * wul + DP_ur * wur + DP_ll * wll + DP_lr * wlr) * area weight],
    the sum taken from the left. *)
Theorem polarttransform_bilinear_entry :
  forall (F : Type) (F64 : Float64 F) (DP : array2 F) (ci cj : F)
         (rmin rmax segments : Z) (out : array2 F) (ri k : nat),
    polarttransform DP ci cj rmin rmax segments false = Ok out ->
    (ri < Z.to_nat (rmax - rmin))%nat ->
    (k < len (azimuths segments))%nat ->
    index_ok (rows DP) (floor_of (sample_row ci rmin segments k ri)) = true
    /\ index_ok (rows DP) (far_of (sample_row ci rmin segments k ri)) = true
    /\ index_ok (cols DP) (floor_of (sample_col cj rmin segments k ri)) = true
    /\ index_ok (cols DP) (far_of (sample_col cj rmin segments k ri)) = true
    /\ at2 out ri k
       = ((pixel DP (floor_of (sample_row ci rmin segments k ri))
                    (floor_of (sample_col cj rmin segments k ri))
           * w_ul (sample_row ci rmin segments k ri) (sample_col cj rmin segments k ri)
           + pixel DP (floor_of (sample_row ci rmin segments k ri))
                      (far_of (sample_col cj rmin segments k ri))
             * w_ur (sample_row ci rmin segments k ri) (sample_col cj rmin segments k ri)
           + pixel DP (far_of (sample_row ci rmin segments k ri))
                      (floor_of (sample_col cj rmin segments k ri))
             * w_ll (sample_row ci rmin segments k ri) (sample_col cj rmin segments k ri)
           + pixel DP (far_of (sample_row ci rmin segments k ri))
                      (far_of (sample_col cj rmin segments k ri))
             * w_lr (sample_row ci rmin segments k ri) (sample_col cj rmin segments k ri))
          * area_weight rmin segments ri)%f64.
Proof.
  intros F F64 DP ci cj rmin rmax segments out ri k H Hri Hk.
  destruct (polarttransform_ok_entries DP ci cj rmin rmax segments false out H
              ri k Hri Hk) as [Hok Hat].
  unfold sample_ok in Hok. cbv zeta in Hok.
  rewrite !andb_true_iff in Hok. destruct Hok as [[[H1 H2] H3] H4].
  repeat (split; [assumption|]). exact Hat.
Qed.

(** The bilinear transform of the float64 image of two rows with centre
    (0.5, 0.25), radius 1 and one segment, in binary64: the sample is at
    (0.5, 1.25), between the pixels of rows 0 and 1, columns 1 and 2; the
    entry is 37.5 times the area weight. *)
Lemma image_2x3_f64_bilinear :
  exists out : array2 float,
    polarttransform (F64 := Binary64_at_zero) image_2x3_f64 0.5%float 0.25%float
      1 2 1 false = Ok out
    /\ at2 out 0 0
       = fmul (Float64 := Binary64_at_zero) 37.5%float
           (area_weight (F64 := Binary64_at_zero) 1 1 0).
Proof.
  destruct (polarttransform_ok (F64 := Binary64_at_zero)
              image_2x3_f64 0.5%float 0.25%float 1 2 1 false)
    as (out & H & _ & Hat).
  - lia.
  - vm_compute. reflexivity.
  - intros k ri Hk Hri.
    assert (Hk0 : k = 0%nat) by (vm_compute in Hk; lia).
    assert (Hr0 : ri = 0%nat) by (vm_compute in Hri; lia).
    subst. vm_compute. reflexivity.
  - exists out. split; [exact H|].
    rewrite (Hat 0%nat 0%nat) by (vm_compute; lia).
    vm_compute. reflexivity.
Qed.

Lemma polarttransform_bilinear_entry_witness :
  exists out : array2 float,
    polarttransform (F64 := Binary64_at_zero) image_2x3_f64 0.5%float 0.25%float
      1 2 1 false = Ok out
    /\ index_ok (rows image_2x3_f64)
         (floor_of (F64 := Binary64_at_zero)
            (sample_row (F64 := Binary64_at_zero) 0.5%float 1 1 0 0)) = true
    /\ index_ok (rows image_2x3_f64)
         (far_of (F64 := Binary64_at_zero)
            (sample_row (F64 := Binary64_at_zero) 0.5%float 1 1 0 0)) = true
    /\ index_ok (cols image_2x3_f64)
         (floor_of (F64 := Binary64_at_zero)
            (sample_col (F64 := Binary64_at_zero) 0.25%float 1 1 0 0)) = true
    /\ index_ok (cols image_2x3_f64)
         (far_of (F64 := Binary64_at_zero)
            (sample_col (F64 := Binary64_at_zero) 0.25%float 1 1 0 0)) = true
    /\ at2 out 0 0
       = fmul (Float64 := Binary64_at_zero)
           (bilinear_value (F64 := Binary64_at_zero) image_2x3_f64
              (sample_row (F64 := Binary64_at_zero) 0.5%float 1 1 0 0)
              (sample_col (F64 := Binary64_at_zero) 0.25%float 1 1 0 0))
           (area_weight (F64 := Binary64_at_zero) 1 1 0).
Proof.
  destruct image_2x3_f64_bilinear as (out & H & _).
  exists out. split; [exact H|].
  apply (polarttransform_bilinear_entry float Binary64_at_zero image_2x3_f64
           0.5%float 0.25%float 1 2 1 out 0 0 H).
  - vm_compute. lia.
  - vm_compute. lia.
Defined.

(** X20.  An exact hit on the last row or the last column in bilinear
    mode, in every arithmetic (float64 included).  When a coordinate of
    some sample is an integer, the index of the last row (or of the last
    column) of [DP], the far neighbour is forced one pixel further out,
    outside the image, and the call raises IndexError, although the sample
    itself lies on a pixel. *)
Theorem polarttransform_bilinear_last_row :
  forall (F : Type) (F64 : Float64 F) (DP : array2 F) (ci cj : F)
         (rmin rmax segments : Z) (k ri : nat),
    segments <> 0 ->
    (k < len (azimuths segments))%nat ->
    (ri < Z.to_nat (rmax - rmin))%nat ->
    (is_integer (sample_row ci rmin segments k ri) (Z.of_nat (rows DP) - 1)
     /\ Z.of_nat (rows DP) <= 32767)
    \/ (is_integer (sample_col cj rmin segments k ri) (Z.of_nat (cols DP) - 1)
        /\ Z.of_nat (cols DP) <= 32767) ->
    polarttransform DP ci cj rmin rmax segments false = Raise IndexError.
Proof.
  intros F F64 DP ci cj rmin rmax segments k ri Hs Hk Hri Hhit.
  apply polarttransform_IndexError_iff; [exact Hs|].
  exists k, ri. split; [exact Hk|]. split; [exact Hri|].
  assert (Hfar : forall (x : F) (n : nat),
             is_integer x (Z.of_nat n - 1) -> Z.of_nat n <= 32767 ->
             index_ok n (far_of x) = false).
  { intros x n (_ & Hf & Hc & Ha) Hn.
    assert (Hfl : floor_of x = Z.of_nat n - 1).
    { unfold floor_of, astype_int16. rewrite Hf, Ha. apply wrap16_small. lia. }
    unfold far_of. rewrite Hfl. unfold astype_int16. rewrite Hc, Ha.
    rewrite (wrap16_small (Z.of_nat n - 1)) by lia. rewrite Z.eqb_refl.
    replace (Z.of_nat n - 1 + 1) with (Z.of_nat n) by lia.
    rewrite wrap16_small by lia.
    destruct (index_ok n (Z.of_nat n)) eqn:E; [|reflexivity].
    apply index_ok_spec in E. lia. }
  unfold sample_ok. cbv zeta.
  destruct Hhit as [[Hx Hn] | [Hy Hn]].
  - rewrite (Hfar _ _ Hx Hn). rewrite andb_false_r. reflexivity.
  - rewrite (Hfar _ _ Hy Hn). rewrite andb_false_r. reflexivity.
Qed.

Lemma polarttransform_bilinear_last_row_witness :
  polarttransform (F64 := Binary64_at_zero) image_1x3_f64 0%float 0%float
    0 1 1 false = Raise IndexError.
Proof.
  apply (polarttransform_bilinear_last_row float Binary64_at_zero image_1x3_f64
           0%float 0%float 0 1 1 0 0).
  - lia.
  - vm_compute. lia.
  - vm_compute. lia.
  - left. split; [|vm_compute; discriminate].
    repeat split; vm_compute; reflexivity.
Defined.

End PolarBehaviour.
